(** * TMS-AI: retry wrapper, answer engine and structured extractor

    A shallow embedding of the decision logic of the repository:

    - [src/utils/retry_utils.py]   : [is_retriable_error], [retry_on_api_error]
    - [src/modules/rag_engine.py]  : [calculate_confidence_score],
                                     [apply_guardrails], [generate_answer],
                                     [ask_question]
    - [src/modules/extractor.py]   : [extract_shipment_data]
    - [src/models/schemas.py]      : [ShipmentData]
    - [src/config/settings.py]     : the numeric settings
    - [src/modules/vector_store.py]: [load_vector_store],
                                     [delete_collection], [similarity_search]
    - [src/modules/document_processor.py] : [chunk_documents]
    - [src/utils/helpers.py]       : [validate_file_extension],
                                     [format_confidence_score]
    - [src/app.py]                 : the [/ask] and [/extract] endpoints

    Python values are modelled as follows.  A [float] is an IEEE-754 binary64
    number (Rocq's primitive floats, the same format as CPython's [float]);
    a [str] is a [string] of 8-bit characters, read as ASCII text; an
    exception is a class tag together with the text [str(e)] and its
    [__cause__]; a call that may raise returns a [result]; calls to the
    outside world (language model, vector index, [time.sleep]) thread a
    world state explicitly. *)

From Stdlib Require Import ZArith List String Ascii Bool Lia Floats DecimalString.
From stdpp Require Import base option gmap strings.
Import ListNotations.

Set Warnings "-inexact-float,-register-all".
Set Default Proof Using "Type".

Local Open Scope string_scope.
Local Open Scope Z_scope.

(* ===================================================================== *)
(** ** Python primitives *)
(* ===================================================================== *)

Module Py.

(** Exception classes that the code names or can meet.  [ConnectionError] and
    [TimeoutError] are the builtins; an instance of one of their subclasses
    (say [ConnectionResetError]) carries the tag of the builtin, since the
    code only ever tests [isinstance].  [OtherError] is any other subclass
    of [Exception], with its class name. *)
Inductive exc_class : Type :=
  | RateLimitError
  | TokenLimitError
  | ServiceUnavailableError
  | ConnectionError
  | TimeoutError
  | ZeroDivisionError
  | TypeError
  | ValidationError
  | JSONDecodeError
  | OtherError (name : string).

#[global] Instance exc_class_eq_dec : EqDecision exc_class.
Proof. solve_decision. Defined.

(** An exception instance: its class, [str(e)], and [e.__cause__]. *)
Inductive exception : Type :=
  | Exc (cls : exc_class) (msg : string) (cause : option exception).

Definition exc_cls (e : exception) : exc_class :=
  match e with Exc c _ _ => c end.

(** [str(e)] *)
Definition str (e : exception) : string :=
  match e with Exc _ m _ => m end.

Definition exc_cause (e : exception) : option exception :=
  match e with Exc _ _ c => c end.

(** [isinstance(e, cls)] for the classes above (none of them derives from
    another one of them). *)
Definition isinstance (e : exception) (c : exc_class) : bool :=
  bool_decide (exc_cls e = c).

(** The outcome of a call: a value, or a raised exception. *)
Inductive result (A : Type) : Type :=
  | Ok (a : A)
  | Raise (e : exception).
Arguments Ok {A} a.
Arguments Raise {A} e.

Definition is_ok {A} (r : result A) : bool :=
  match r with Ok _ => true | Raise _ => false end.

(** The objects [json.loads] builds, also used for the scalar values of a
    chunk's metadata dict. *)
Inductive json : Type :=
  | JNull
  | JBool (b : bool)
  | JInt (z : Z)
  | JFloat (f : float)
  | JStr (s : string)
  | JList (l : list json)
  | JDict (d : gmap string json).

(** *** Strings *)

Definition char_lower (c : ascii) : ascii :=
  let n := nat_of_ascii c in
  if ((65 <=? n) && (n <=? 90))%nat then ascii_of_nat (n + 32) else c.

(** [s.lower()] *)
Fixpoint lower (s : string) : string :=
  match s with
  | EmptyString => EmptyString
  | String c t => String (char_lower c) (lower t)
  end.

(** [s.startswith(p)] *)
Definition startswith (s p : string) : bool := String.prefix p s.

(** [sub in s] *)
Fixpoint contains (sub s : string) : bool :=
  String.prefix sub s ||
  match s with
  | EmptyString => false
  | String _ t => contains sub t
  end.

(** The ASCII characters that [str.strip()] removes: tab, line feed,
    vertical tab, form feed, carriage return, the separators 0x1c-0x1f and
    the space. *)
Definition is_space (c : ascii) : bool :=
  let n := nat_of_ascii c in
  (((9 <=? n) && (n <=? 13)) || ((28 <=? n) && (n <=? 32)))%nat.

Fixpoint lstrip (s : string) : string :=
  match s with
  | EmptyString => EmptyString
  | String c t => if is_space c then lstrip t else s
  end.

Fixpoint rstrip (s : string) : string :=
  match s with
  | EmptyString => EmptyString
  | String c t =>
      match rstrip t with
      | EmptyString => if is_space c then EmptyString else String c EmptyString
      | t' => String c t'
      end
  end.

(** [s.strip()] *)
Definition strip (s : string) : string := rstrip (lstrip s).

(** [s[n:]] *)
Fixpoint drop_chars (n : nat) (s : string) : string :=
  match n, s with
  | O, _ => s
  | S n', String _ t => drop_chars n' t
  | S _, EmptyString => EmptyString
  end.

(** [s.split(sep)] for a non-empty [sep]: the pieces between the
    non-overlapping occurrences of [sep], scanned from the left.  [skip]
    counts the characters of an occurrence still to be dropped and [cur] is
    the piece being read, reversed. *)
Fixpoint split_aux (sep : string) (skip : nat) (cur : string) (s : string)
  : list string :=
  match skip with
  | S k =>
      match s with
      | EmptyString => [String.rev cur]
      | String _ t => split_aux sep k cur t
      end
  | O =>
      match s with
      | EmptyString => [String.rev cur]
      | String c t =>
          if String.prefix sep s
          then String.rev cur :: split_aux sep (String.length sep - 1) EmptyString t
          else split_aux sep O (String c cur) t
      end
  end.

Definition split (s sep : string) : list string := split_aux sep O EmptyString s.

(** [sep.join(parts)] *)
Fixpoint join (sep : string) (parts : list string) : string :=
  match parts with
  | [] => EmptyString
  | [p] => p
  | p :: rest => p ++ sep ++ join sep rest
  end.

(** [str(n)] for a non-negative integer *)
Definition str_of_nat (n : nat) : string := NilEmpty.string_of_uint (Nat.to_uint n).

(** *** Floats *)

Local Open Scope float_scope.

(** [float(n)] for a length [n] (a [Py_ssize_t], below 2^63), rounded to
    nearest even as CPython converts an [int]. *)
Definition float_of_len (n : nat) : float :=
  PrimFloat.of_uint63 (Uint63.of_Z (Z.of_nat n)).

(** The builtin [sum(xs)] on a list of floats, as CPython computes it up to
    version 3.11: the items are added from left to right to the start
    value [0]. *)
Definition sum_left_to_right (xs : list float) : float :=
  fold_left PrimFloat.add xs 0.

(** The builtin [sum(xs)] on a list of floats from CPython 3.12 on: the
    same additions, with the rounding errors accumulated in [c]
    (Neumaier's compensation) and added at the end when [c] is finite and
    not zero. *)
Fixpoint sum_compensated_from (f_result c : float) (xs : list float) : float :=
  match xs with
  | [] => if negb (PrimFloat.is_zero c) && PrimFloat.is_finite c
          then f_result + c else f_result
  | x :: rest =>
      let t := f_result + x in
      let c' := if PrimFloat.abs x <=? PrimFloat.abs f_result
                then c + ((f_result - t) + x)
                else c + ((x - t) + f_result) in
      sum_compensated_from t c' rest
  end.

Definition sum_compensated (xs : list float) : float :=
  match xs with
  | [] => 0
  | x :: rest => sum_compensated_from (0 + x) 0 rest
  end.

(** [total / len(xs)], true division by a list length.  Division by zero
    raises. *)
Definition div_len (total : float) (n : nat) : result float :=
  match n with
  | O => Raise (Exc ZeroDivisionError "division by zero" None)
  | S _ => Ok (total / float_of_len n)
  end.

(** The integer nearest to [n / d] ([0 <= n], [0 < d]), ties to even. *)
Definition div_half_even (n d : Z) : Z :=
  let q := (n / d)%Z in
  match (2 * (n mod d) ?= d)%Z with
  | Lt => q
  | Gt => (q + 1)%Z
  | Eq => if Z.even q then q else (q + 1)%Z
  end.

(** [round(x, ndigits)] for [0 <= ndigits]: the exact binary value of [x]
    is rounded half-to-even to [ndigits] decimals, and the decimal obtained
    is converted back to the nearest float.  Zeros, infinities and NaN round
    to themselves. *)
Definition round (x : float) (ndigits : nat) : float :=
  match Prim2SF x with
  | S754_finite s m e =>
      let p := (10 ^ Z.of_nat ndigits)%Z in
      let n := if (0 <=? e)%Z
               then (Z.pos m * 2 ^ e * p)%Z
               else div_half_even (Z.pos m * p) (2 ^ (- e)) in
      match n with
      | Z.pos k =>
          SF2Prim (SFdiv prec emax (S754_finite s k 0)
                                   (S754_finite false (Z.to_pos p) 0))
      | _ => SF2Prim (S754_zero s)
      end
  | _ => x
  end.

End Py.

(* ===================================================================== *)
(** ** [src/utils/retry_utils.py] *)
(* ===================================================================== *)

Module RetryUtils.
Import Py.

(** [is_retriable_error] (lines 31-51) *)
Definition is_retriable_error (exception : exception) : bool :=
  let error_msg := lower (str exception) in
  if contains "rate limit" error_msg || contains "429" error_msg then true
  else if contains "token limit" error_msg || contains "tokens" error_msg then true
  else if contains "503" error_msg || contains "service unavailable" error_msg then true
  else if contains "timeout" error_msg then true
  else false.

(** The exception that leaves the body of [wrapper] (lines 79-90) when
    [func] raised [e]: a generic exception whose text matches is replaced by
    one of the module's own classes, [raise ... from e]; otherwise the bare
    [raise] re-raises [e] itself. *)
Definition reclassify (e : exception) : exception :=
  if is_retriable_error e then
    let error_msg := lower (str e) in
    if contains "rate limit" error_msg || contains "429" error_msg
    then Exc RateLimitError (str e) (Some e)
    else if contains "token limit" error_msg || contains "tokens" error_msg
    then Exc TokenLimitError (str e) (Some e)
    else if contains "503" error_msg || contains "service unavailable" error_msg
    then Exc ServiceUnavailableError (str e) (Some e)
    else e
  else e.

(** [retry_if_exception_type((RateLimitError, TokenLimitError,
    ServiceUnavailableError, ConnectionError, TimeoutError))] (lines 65-71) *)
Definition retry_exception_types : list exc_class :=
  [RateLimitError; TokenLimitError; ServiceUnavailableError;
   ConnectionError; TimeoutError].

Definition retry_if_exception_type (e : exception) : bool :=
  existsb (isinstance e) retry_exception_types.

(** [stop_after_attempt(3)] (line 63) *)
Definition max_attempt_number : nat := 3.

(** [wait_exponential(multiplier=1, min=1, max=10)] (line 64), in seconds,
    after attempt number [attempt_number]:
    [max(max(0, min), min(multiplier * 2 ** (attempt_number - 1), max))]. *)
Definition wait_exponential (attempt_number : nat) : Z :=
  Z.max (Z.max 0 1) (Z.min (1 * 2 ^ (Z.of_nat attempt_number - 1)) 10).

(** What one decorated call did: its outcome, the state it left, the number
    of attempts made and the backoff waits slept, in order. *)
Record Run (S A : Type) : Type := MkRun {
  outcome : result A;
  final : S;
  attempts : nat;
  waits : list Z
}.
Arguments MkRun {S A}.
Arguments outcome {S A}.
Arguments final {S A}.
Arguments attempts {S A}.
Arguments waits {S A}.

Section Retrying.
(** The state of the world the wrapped operation acts on, and the effect
    of [time.sleep(seconds)] on it. *)
Context {S : Type}.
Variable sleep : Z -> S -> S.

Context {A : Type}.

(** [wrapper] (lines 76-90): the body that tenacity calls at each
    attempt. *)
Definition wrapper (func : S -> result A * S) (s : S) : result A * S :=
  match func s with
  | (Ok v, s') => (Ok v, s')
  | (Raise e, s') => (Raise (reclassify e), s')
  end.

(** tenacity's loop under [@retry(stop=..., wait=..., retry=...,
    reraise=True)]: attempt; return a result at once; re-raise at once an
    exception the [retry] predicate rejects; re-raise the last exception
    when [stop] holds, that is when no attempt is left; otherwise sleep
    and attempt again.  [left] is [max_attempt_number - attempt_number]. *)
Fixpoint attempt_loop (left attempt_number : nat) (slept : list Z)
         (fn : S -> result A * S) (s : S) : Run S A :=
  match fn s with
  | (Ok v, s1) => MkRun (Ok v) s1 attempt_number slept
  | (Raise e, s1) =>
      if negb (retry_if_exception_type e)
      then MkRun (Raise e) s1 attempt_number slept
      else
        match left with
        | O => MkRun (Raise e) s1 attempt_number slept
        | Datatypes.S left' =>
            let seconds := wait_exponential attempt_number in
            attempt_loop left' (Datatypes.S attempt_number)
                         (slept ++ [seconds]) fn (sleep seconds s1)
        end
  end.

(** One call of a function decorated with [@retry_on_api_error], with its
    bookkeeping. *)
Definition retry_run (func : S -> result A * S) (s : S) : Run S A :=
  attempt_loop (max_attempt_number - 1) 1 [] (wrapper func) s.

(** [retry_on_api_error(func)] (lines 53-92) *)
Definition retry_on_api_error (func : S -> result A * S) (s : S)
  : result A * S :=
  let r := retry_run func s in (outcome r, final r).

(** An error that the decorated call answers with another attempt while
    attempts are left. *)
Definition retried (e : exception) : bool :=
  retry_if_exception_type (reclassify e).

End Retrying.

(** The markers on which [wrapper] replaces the exception by one of the
    module's own classes. *)
Definition conversion_marker (e : exception) : bool :=
  let error_msg := lower (str e) in
  contains "rate limit" error_msg || contains "429" error_msg
  || contains "token limit" error_msg || contains "tokens" error_msg
  || contains "503" error_msg || contains "service unavailable" error_msg.

(** The reading of the classification that is by message text alone: the
    markers [is_retriable_error] looks for, and a connection phrase. *)
Definition message_markers : list string :=
  ["rate limit"; "429"; "token limit"; "tokens"; "503";
   "service unavailable"; "timeout"; "connection"].

Definition has_marker (e : exception) : bool :=
  existsb (fun m => contains m (lower (str e))) message_markers.

End RetryUtils.

(* ===================================================================== *)
(** ** The outside world *)
(* ===================================================================== *)

Module Sys.
Import Py.

(** A chunk: langchain's [Document]. *)
Record Document : Type := MkDocument {
  page_content : string;
  metadata : gmap string json
}.

(** What a call did to the outside, in order. *)
Inductive event : Type :=
  | InitEmbeddings
  | Search (query : string) (k : nat)
  | LlmInvoke (prompt : string)
  | Sleep (seconds : Z).

Definition is_llm_invoke (ev : event) : bool :=
  match ev with LlmInvoke _ => true | _ => false end.

Definition is_sleep (ev : event) : bool :=
  match ev with Sleep _ => true | _ => false end.

(** The world: the state [Env] of the remote services, and the log of the
    calls made so far. *)
Record World (Env : Type) : Type := MkWorld {
  env : Env;
  events : list event
}.
Arguments MkWorld {Env}.
Arguments env {Env}.
Arguments events {Env}.

(** A computation that acts on the world and may raise. *)
Definition M (Env A : Type) : Type := World Env -> result A * World Env.

Definition ret {Env A} (a : A) : M Env A := fun w => (Ok a, w).

Definition raise {Env A} (e : exception) : M Env A := fun w => (Raise e, w).

Definition bind {Env A B} (m : M Env A) (k : A -> M Env B) : M Env B :=
  fun w =>
    match m w with
    | (Ok a, w') => k a w'
    | (Raise e, w') => (Raise e, w')
    end.

(** A pure step that may raise. *)
Definition lift {Env A} (r : result A) : M Env A := fun w => (r, w).

(** A call to a remote service: logged, then answered by the service. *)
Definition call {Env A} (ev : event) (service : Env -> result A * Env)
  : M Env A :=
  fun w =>
    let '(r, e') := service (env w) in
    (r, MkWorld e' (events w ++ [ev])).

(** [try: body except Exception: handler] *)
Definition try_except {Env A} (body : M Env A) (handler : exception -> M Env A)
  : M Env A :=
  fun w =>
    match body w with
    | (Ok a, w') => (Ok a, w')
    | (Raise e, w') => handler e w'
    end.

End Sys.

Declare Scope py_scope.
Delimit Scope py_scope with py.
Notation "x <- m ;; k" := (Sys.bind m (fun x => k))
  (at level 100, m at next level, right associativity) : py_scope.

(* ===================================================================== *)
(** ** [src/config/settings.py] *)
(* ===================================================================== *)

Module Config.

(** The settings the answer engine reads. *)
Record Settings : Type := MkSettings {
  SIMILARITY_THRESHOLD : float;
  TOP_K_RETRIEVAL : nat;
  SIMILARITY_WEIGHT : float;
  AGREEMENT_WEIGHT : float
}.

(** The values of [settings.py] (lines 22-27). *)
Definition settings : Settings :=
  {| SIMILARITY_THRESHOLD := 0.2%float;
     TOP_K_RETRIEVAL := 3%nat;
     SIMILARITY_WEIGHT := 0.5%float;
     AGREEMENT_WEIGHT := 0.5%float |}.

End Config.

(* ===================================================================== *)
(** ** [src/modules/rag_engine.py] *)
(* ===================================================================== *)

Module RagEngine.
Import Py Sys Config.
Local Open Scope py_scope.

(** One entry of the ["sources"] list of an answer. *)
Record Source : Type := MkSource {
  content : string;
  similarity_score : float;
  source_metadata : gmap string json
}.

(** The dict that [generate_answer] and [ask_question] return. *)
Record Answer : Type := MkAnswer {
  answer : string;
  confidence_score : float;
  confidence_category : string;
  sources : list Source;
  passes_guardrails : bool
}.

(** The answer that replaces the generated one (line 196). *)
Definition abstention_text : string :=
  "I cannot provide a confident answer based on the available context. The information might not be present in the document, or the retrieved content has low relevance to your question.".

(** The answer of the zero-result branch (line 253). *)
Definition no_information_text : string :=
  "No relevant information found in the document.".

Definition dquote : string := String "034"%char EmptyString.

(** [_create_prompt] (lines 120-153) *)
Definition _create_prompt (question context : string) : string :=
  "You are a helpful AI assistant for a Transportation Management System (TMS). 
Your task is to answer questions about logistics documents accurately and concisely.

IMPORTANT RULES:
1. Answer ONLY based on the provided context below
2. If the context doesn't contain the information, say " ++ dquote ++
  "The information is not found in the document" ++ dquote ++ "
3. Be specific and cite relevant details from the context
4. Keep answers concise and factual
5. Do not make up or infer information not present in the context

Context from document:
" ++ context ++ "

Question: " ++ question ++ "

Answer:".

(** The context block of lines 177-180: [enumerate(documents)] from
    index [i]. *)
Fixpoint source_blocks (i : nat) (documents : list Document) : list string :=
  match documents with
  | [] => []
  | doc :: rest =>
      ("[Source " ++ str_of_nat (i + 1) ++ "]:
" ++ page_content doc) :: source_blocks (S i) rest
  end.

Section Engine.
Variable cfg : Settings.

(** The builtin [sum] on a list of floats: [Py.sum_left_to_right] or
    [Py.sum_compensated], by the version of the interpreter. *)
Variable sum : list float -> float.

Local Open Scope float_scope.

(** [calculate_confidence_score] (lines 44-88) *)
Definition calculate_confidence_score
    (retrieval_scores : list float) (answer : string)
    (sources : list Document) : result (float * string) :=
  match div_len (sum retrieval_scores) (length retrieval_scores) with
  | Raise e => Raise e
  | Ok mean =>
      let avg_similarity := 1 - mean in
      let source_agreement :=
        if (2 <=? length sources)%nat then 1.0 else 0.7 in
      let confidence :=
        SIMILARITY_WEIGHT cfg * avg_similarity
        + AGREEMENT_WEIGHT cfg * source_agreement in
      let category :=
        if 0.7 <=? confidence then "high"%string
        else if 0.5 <=? confidence then "medium"%string
        else "low"%string in
      Ok (confidence, category)
  end.

(** [apply_guardrails] (lines 90-118); [self.similarity_threshold] is
    [settings.SIMILARITY_THRESHOLD] (line 22). *)
Definition apply_guardrails (confidence : float)
    (retrieval_scores : list float) : result bool :=
  match div_len (sum retrieval_scores) (length retrieval_scores) with
  | Raise e => Raise e
  | Ok mean =>
      let avg_retrieval := 1 - mean in
      if avg_retrieval <? SIMILARITY_THRESHOLD cfg then Ok false
      else if confidence <? SIMILARITY_THRESHOLD cfg then Ok false
      else Ok true
  end.

(** The remote services: the state they keep, the language model
    ([self.llm.invoke(prompt).content]), the vector index
    ([vector_store.similarity_search_with_score(query, k=k)]), the
    construction of the embeddings client, and the passing of time. *)
Context {Env Chroma : Type}.
Variable llm_invoke : string -> Env -> result string * Env.
Variable similarity_search_with_score :
  Chroma -> string -> nat -> Env -> result (list (Document * float)) * Env.
Variable MistralAIEmbeddings : Env -> result unit * Env.
Variable elapse : Z -> Env -> Env.

(** [time.sleep(seconds)] *)
Definition sleep (seconds : Z) (w : World Env) : World Env :=
  MkWorld (elapse seconds (env w)) (events w ++ [Sleep seconds]).

(** The body of [generate_answer] (lines 171-222); the handler logs and
    re-raises. *)
Definition generate_answer_body (question : string)
    (retrieved_docs : list (Document * float)) : M Env Answer :=
  try_except
    (let documents := map fst retrieved_docs in
     let scores := map snd retrieved_docs in
     let context := join "

---

" (source_blocks 0 documents) in
     let prompt := _create_prompt question context in
     generated <- call (LlmInvoke prompt) (llm_invoke prompt) ;;
     scored <- lift (calculate_confidence_score scores generated documents) ;;
     let confidence := fst scored in
     let category := snd scored in
     passes_guardrails <- lift (apply_guardrails confidence scores) ;;
     let answer := if negb passes_guardrails then abstention_text else generated in
     let category := if negb passes_guardrails then "low"%string else category in
     let sources :=
       map (fun ds => MkSource (page_content (fst ds))
                               (round (1 - snd ds) 3)
                               (metadata (fst ds)))
           retrieved_docs in
     ret (MkAnswer answer (round confidence 3) category sources
                   passes_guardrails))
    (fun e => raise e).

(** [generate_answer] (lines 155-222), decorated. *)
Definition generate_answer (question : string)
    (retrieved_docs : list (Document * float)) : M Env Answer :=
  RetryUtils.retry_on_api_error sleep
    (generate_answer_body question retrieved_docs).

(** [VectorStoreManager()] ([vector_store.py], lines 18-40): the decorated
    [_initialize_embeddings]. *)
Definition VectorStoreManager : M Env unit :=
  RetryUtils.retry_on_api_error sleep
    (try_except (call InitEmbeddings MistralAIEmbeddings)
                (fun e => raise e)).

(** [VectorStoreManager.similarity_search] ([vector_store.py],
    lines 98-126), decorated. *)
Definition similarity_search (vector_store : Chroma) (query : string)
    (k : option nat) : M Env (list (Document * float)) :=
  RetryUtils.retry_on_api_error sleep
    (let k := match k with None => TOP_K_RETRIEVAL cfg | Some k => k end in
     try_except
       (call (Search query k) (similarity_search_with_score vector_store query k))
       (fun e => raise e)).

(** The dict of the zero-result branch (lines 252-258). *)
Definition no_information : Answer :=
  MkAnswer no_information_text 0.0 "low" [] false.

(** [ask_question] (lines 224-263) *)
Definition ask_question (vector_store : Chroma) (question : string)
  : M Env Answer :=
  vsm <- VectorStoreManager ;;
  retrieved_docs <-
    similarity_search vector_store question (Some (TOP_K_RETRIEVAL cfg)) ;;
  match retrieved_docs with
  | [] => ret no_information
  | _ :: _ => generate_answer question retrieved_docs
  end.

End Engine.

End RagEngine.

(* ===================================================================== *)
(** ** [src/models/schemas.py] and [src/modules/extractor.py] *)
(* ===================================================================== *)

Module Extractor.
Import Py Sys Config.
Local Open Scope py_scope.

(** [ShipmentData] ([schemas.py], lines 38-50): eleven [Optional[str]]
    fields, each defaulting to [None]. *)
Record ShipmentData : Type := MkShipmentData {
  shipment_id : option string;
  shipper : option string;
  consignee : option string;
  pickup_datetime : option string;
  delivery_datetime : option string;
  equipment_type : option string;
  mode : option string;
  rate : option string;
  currency : option string;
  weight : option string;
  carrier_name : option string
}.

(** The fields, with their names and getters, in declaration order. *)
Definition fields : list (string * (ShipmentData -> option string)) :=
  [("shipment_id", shipment_id); ("shipper", shipper);
   ("consignee", consignee); ("pickup_datetime", pickup_datetime);
   ("delivery_datetime", delivery_datetime);
   ("equipment_type", equipment_type); ("mode", mode); ("rate", rate);
   ("currency", currency); ("weight", weight);
   ("carrier_name", carrier_name)].

(** [ShipmentData()] *)
Definition empty_shipment_data : ShipmentData :=
  MkShipmentData None None None None None None None None None None None.

Definition dquote : string := String "034"%char EmptyString.

(** [_create_extraction_prompt] (lines 44-89) *)
Definition _create_extraction_prompt (document_text : string) : string :=
  "You are an expert at extracting structured data from logistics documents.

Your task is to extract the following shipment information from the provided document text.
Return ONLY a JSON object with these exact fields. Use null for any field not found in the document.

Required fields:
- shipment_id: Shipment or order ID
- shipper: Name or company shipping the goods
- consignee: Name or company receiving the goods
- pickup_datetime: Scheduled pickup date and time
- delivery_datetime: Scheduled or expected delivery date and time
- equipment_type: Type of equipment (e.g., " ++ dquote ++ "53' Dry Van" ++ dquote
  ++ ", " ++ dquote ++ "Flatbed" ++ dquote ++ ", " ++ dquote ++ "Reefer" ++ dquote ++ ")
- mode: Transportation mode (e.g., " ++ dquote ++ "LTL" ++ dquote ++ ", " ++ dquote
  ++ "FTL" ++ dquote ++ ", " ++ dquote ++ "Parcel" ++ dquote ++ ")
- rate: Transportation rate or cost
- currency: Currency for the rate (e.g., " ++ dquote ++ "USD" ++ dquote ++ ", "
  ++ dquote ++ "CAD" ++ dquote ++ ")
- weight: Total weight of shipment
- carrier_name: Name of the carrier company

IMPORTANT RULES:
1. Extract information EXACTLY as it appears in the document
2. Return valid JSON format only, no additional text
3. Use null for missing fields, not empty strings
4. Preserve original formatting for dates, numbers, and names
5. Do not make assumptions or infer missing data

Document Text:
" ++ document_text ++ "

JSON Output:".

(** The query of [_get_document_context] (line 106). *)
Definition context_query : string :=
  "shipment carrier consignee shipper pickup delivery rate".

Section Extraction.
(** [json.loads], from the standard library: a JSON text is mapped to the
    object it denotes, anything else raises ([JSONDecodeError] for
    malformed text). *)
Variable json_loads : string -> result json.

(** pydantic's validation of a field value that is neither [None] nor a
    [str]: the string it is coerced to, if the installed version coerces
    it, or [None] for a validation error. *)
Variable str_validator : json -> option string.

(** Validation of one [Optional[str] = None] field from the keyword
    arguments. *)
Definition validate_field (kwargs : gmap string json) (name : string)
  : result (option string) :=
  match kwargs !! name with
  | None => Ok None
  | Some JNull => Ok None
  | Some (JStr s) => Ok (Some s)
  | Some v =>
      match str_validator v with
      | Some s => Ok (Some s)
      | None => Raise (Exc ValidationError "validation error for ShipmentData" None)
      end
  end.

Definition and_then {A B} (r : result A) (k : A -> result B) : result B :=
  match r with Ok a => k a | Raise e => Raise e end.

(** The constructor call of line 162, with [extracted_data] unpacked as
    keyword arguments: only a dict can be unpacked; keys that are not
    fields are ignored. *)
Definition ShipmentData_init (extracted_data : json) : result ShipmentData :=
  match extracted_data with
  | JDict kwargs =>
      and_then (validate_field kwargs "shipment_id") (fun f1 =>
      and_then (validate_field kwargs "shipper") (fun f2 =>
      and_then (validate_field kwargs "consignee") (fun f3 =>
      and_then (validate_field kwargs "pickup_datetime") (fun f4 =>
      and_then (validate_field kwargs "delivery_datetime") (fun f5 =>
      and_then (validate_field kwargs "equipment_type") (fun f6 =>
      and_then (validate_field kwargs "mode") (fun f7 =>
      and_then (validate_field kwargs "rate") (fun f8 =>
      and_then (validate_field kwargs "currency") (fun f9 =>
      and_then (validate_field kwargs "weight") (fun f10 =>
      and_then (validate_field kwargs "carrier_name") (fun f11 =>
      Ok (MkShipmentData f1 f2 f3 f4 f5 f6 f7 f8 f9 f10 f11))))))))))))
  | _ => Raise (Exc TypeError "argument after ** must be a mapping" None)
  end.

(** Lines 142-151: the text handed to [json.loads]. *)
Definition clean_response (response_content : string) : result string :=
  let result_text := strip response_content in
  and_then
    (if startswith result_text "```" then
       match split result_text "```" with
       | _ :: piece :: _ =>
           Ok (if startswith piece "json" then drop_chars 4 piece else piece)
       | _ => Raise (Exc (OtherError "IndexError") "list index out of range" None)
       end
     else Ok result_text)
    (fun result_text => Ok (strip result_text)).

(** Lines 154-159: [json.loads] with the fallback [{}] on a
    [JSONDecodeError]; any other exception propagates. *)
Definition parse_json (result_text : string) : result json :=
  match json_loads result_text with
  | Ok extracted_data => Ok extracted_data
  | Raise je =>
      if isinstance je JSONDecodeError then Ok (JDict ∅) else Raise je
  end.

Context {Env Chroma : Type}.
Variable llm_invoke : string -> Env -> result string * Env.
Variable chroma_similarity_search :
  Chroma -> string -> nat -> Env -> result (list Document) * Env.
Variable elapse : Z -> Env -> Env.

Definition sleep (seconds : Z) (w : World Env) : World Env :=
  MkWorld (elapse seconds (env w)) (events w ++ [Sleep seconds]).

(** [_get_document_context] (lines 91-117), with [max_chunks = 5] by
    default. *)
Definition _get_document_context (vector_store : Chroma) (max_chunks : nat)
  : M Env string :=
  try_except
    (results <- call (Search context_query max_chunks)
                     (chroma_similarity_search vector_store context_query max_chunks) ;;
     ret (join "

" (map page_content results)))
    (fun e => raise e).

(** The body of [extract_shipment_data] (lines 131-170). *)
Definition extract_shipment_data_body (vector_store : Chroma)
    (document_id : string) : M Env ShipmentData :=
  try_except
    (document_text <- _get_document_context vector_store 5 ;;
     let prompt := _create_extraction_prompt document_text in
     response_content <- call (LlmInvoke prompt) (llm_invoke prompt) ;;
     result_text <- lift (clean_response response_content) ;;
     extracted_data <- lift (parse_json result_text) ;;
     shipment_data <- lift (ShipmentData_init extracted_data) ;;
     ret shipment_data)
    (fun e => ret empty_shipment_data).

(** [extract_shipment_data] (lines 119-170), decorated. *)
Definition extract_shipment_data (vector_store : Chroma)
    (document_id : string) : M Env ShipmentData :=
  RetryUtils.retry_on_api_error sleep
    (extract_shipment_data_body vector_store document_id).

End Extraction.

End Extractor.

(* ===================================================================== *)
(** ** Sample operations and services *)
(* ===================================================================== *)

Module Samples.
Import Py Sys.

(** A world in which waiting changes nothing. *)
Definition no_wait {S : Type} (seconds : Z) (s : S) : S := s.

(** An operation that counts its calls and always raises [e]. *)
Definition always_raise (e : exception) (calls : nat) : result string * nat :=
  (Raise e, S calls).

(** An operation that counts its calls, raises [e] on the first [k] and
    then returns [v]. *)
Definition fail_then_return (k : nat) (e : exception) (v : string)
    (calls : nat) : result string * nat :=
  if (calls <? k)%nat then (Raise e, S calls) else (Ok v, S calls).

(** An HTTP 429 from the model provider, raised as the provider's own
    exception class. *)
Definition api_429 : exception :=
  Exc (OtherError "APIStatusError") "Error code: 429 - Rate limit reached" None.

(** [ConnectionError()], without a message. *)
Definition connection_error : exception := Exc ConnectionError "" None.

(** [Exception("Request timeout")] *)
Definition request_timeout : exception :=
  Exc (OtherError "Exception") "Request timeout" None.

(** [ValueError("bad input")] *)
Definition value_error : exception :=
  Exc (OtherError "ValueError") "bad input" None.

End Samples.

(* ===================================================================== *)
(** ** [src/utils/helpers.py] *)
(* ===================================================================== *)

Module Helpers.
Import Py.

(** [s.rsplit(sep, 1)] for a one-character [sep]: the text before and after
    the last [sep], when there is one. *)
Fixpoint rsplit_last (sep : ascii) (s : string) : option (string * string) :=
  match s with
  | EmptyString => None
  | String a t =>
      match rsplit_last sep t with
      | Some (before, after) => Some (String a before, after)
      | None => if Ascii.eqb a sep then Some (EmptyString, t) else None
      end
  end.

Definition rsplit1 (s : string) (sep : ascii) : list string :=
  match rsplit_last sep s with
  | Some (before, after) => [before; after]
  | None => [s]
  end.

(** [validate_file_extension] (lines 11-25) *)
Definition validate_file_extension (filename : string)
    (allowed_extensions : gset string) : result bool :=
  if negb (contains "." filename) then Ok false
  else
    match rsplit1 filename "."%char !! 1%nat with
    | Some piece => Ok (bool_decide (lower piece ∈ allowed_extensions))
    | None => Raise (Exc (OtherError "IndexError") "list index out of range" None)
    end.

(** [validate_file_size] (lines 27-38) *)
Definition validate_file_size (file_size max_size : Z) : bool :=
  (file_size <=? max_size)%Z.

(** The dict that [format_confidence_score] returns. *)
Record ScoreFormat : Type := MkScoreFormat {
  score : float;
  category : string;
  color : string;
  percentage : string
}.

Section Formatting.
(** [str(x)] of a float, as an f-string prints it. *)
Variable float_str : float -> string.

Local Open Scope float_scope.

(** [format_confidence_score] (lines 40-65) *)
Definition format_confidence_score (score : float) : ScoreFormat :=
  let '(category, color) :=
    if 0.7 <=? score then ("high"%string, "green"%string)
    else if 0.5 <=? score then ("medium"%string, "yellow"%string)
    else ("low"%string, "red"%string) in
  MkScoreFormat (round score 3) category color
                (float_str (round (score * 100) 1) ++ "%")%string.

End Formatting.

End Helpers.

(* ===================================================================== *)
(** ** [src/modules/vector_store.py] *)
(* ===================================================================== *)

Module VectorStore.
Import Py Sys.
Local Open Scope py_scope.

Section Store.
(** The vector index: opening a collection ([Chroma(collection_name=...)]),
    building one ([Chroma.from_documents]), persisting and deleting it. *)
Context {Env Chroma : Type}.
Variable Chroma_open : string -> Env -> result Chroma * Env.
Variable Chroma_from_documents :
  list Document -> string -> Env -> result Chroma * Env.
Variable Chroma_persist : Chroma -> Env -> result unit * Env.
Variable Chroma_delete_collection : Chroma -> Env -> result unit * Env.
(** [bool(vector_store)]: constantly true for a class that defines neither
    [__bool__] nor [__len__]; the number of stored documents is not zero
    for one whose [__len__] counts them. *)
Variable Chroma_bool : Chroma -> Env -> result bool * Env.
Variable elapse : Z -> Env -> Env.

(** A call to the index that the log does not record. *)
Definition service {A} (f : Env -> result A * Env) : M Env A :=
  fun w => let '(r, e') := f (env w) in (r, MkWorld e' (events w)).

Definition sleep (seconds : Z) (w : World Env) : World Env :=
  MkWorld (elapse seconds (env w)) (events w ++ [Sleep seconds]).

(** [create_vector_store] (lines 42-72), decorated. *)
Definition create_vector_store (chunks : list Document)
    (collection_name : string) : M Env Chroma :=
  RetryUtils.retry_on_api_error sleep
    (try_except
       (vector_store <- service (Chroma_from_documents chunks collection_name) ;;
        persisted <- service (Chroma_persist vector_store) ;;
        ret vector_store)
       (fun e => raise e)).

(** [load_vector_store] (lines 74-96) *)
Definition load_vector_store (collection_name : string)
  : M Env (option Chroma) :=
  try_except
    (vector_store <- service (Chroma_open collection_name) ;;
     ret (Some vector_store))
    (fun e => ret None).

(** The truth value of what [load_vector_store] returned: [None] is
    false. *)
Definition truth (vector_store : option Chroma) : M Env bool :=
  match vector_store with
  | None => ret false
  | Some vs => service (Chroma_bool vs)
  end.

(** [delete_collection] (lines 128-147) *)
Definition delete_collection (collection_name : string) : M Env bool :=
  try_except
    (vector_store <- load_vector_store collection_name ;;
     match vector_store with
     | Some vs =>
         truthy <- truth vector_store ;;
         if truthy : bool then
           deleted <- service (Chroma_delete_collection vs) ;;
           ret true
         else ret false
     | None => ret false
     end)
    (fun e => ret false).

End Store.

End VectorStore.

(* ===================================================================== *)
(** ** [src/modules/document_processor.py] *)
(* ===================================================================== *)

Module DocumentProcessor.
Import Py Sys.

(** The dict that line 81 passes to [chunk.metadata.update]. *)
Definition chunk_metadata (document_id filename : string)
    (idx total : nat) : gmap string json :=
  <["document_id" := JStr document_id]>
    (<["filename" := JStr filename]>
       (<["chunk_index" := JInt (Z.of_nat idx)]>
          (<["total_chunks" := JInt (Z.of_nat total)]> ∅))).

(** The loop of lines 80-86 over [enumerate(chunks)] from index [idx]:
    [dict.update] lets the new keys win. *)
Fixpoint add_metadata (document_id filename : string) (total idx : nat)
    (chunks : list Document) : list Document :=
  match chunks with
  | [] => []
  | chunk :: rest =>
      MkDocument (page_content chunk)
                 (chunk_metadata document_id filename idx total ∪ metadata chunk)
      :: add_metadata document_id filename total (S idx) rest
  end.

Section Chunking.
(** [self.text_splitter.split_documents]: the chunks are fresh documents,
    each with its own metadata dict. *)
Variable split_documents : list Document -> result (list Document).

(** [chunk_documents] (lines 62-92); the handler logs and re-raises. *)
Definition chunk_documents (documents : list Document)
    (document_id filename : string) : result (list Document) :=
  match split_documents documents with
  | Ok chunks =>
      Ok (add_metadata document_id filename (length chunks) 0 chunks)
  | Raise e => Raise e
  end.

End Chunking.

End DocumentProcessor.

(* ===================================================================== *)
(** ** [src/app.py]: the [/ask] and [/extract] endpoints *)
(* ===================================================================== *)

Module App.
Import Py Sys Config.

(** An entry of [document_registry] (lines 128-133). *)
Record DocInfo : Type := MkDocInfo {
  filename : string;
  file_path : string;
  collection_name : string;
  num_chunks : nat
}.

(** [SourceChunk], [AskResponse] and [ExtractResponse] of [schemas.py]. *)
Record SourceChunk : Type := MkSourceChunk {
  chunk_content : string;
  chunk_similarity_score : float;
  chunk_metadata : gmap string json
}.

Record AskResponse : Type := MkAskResponse {
  ask_success : bool;
  ask_answer : string;
  ask_confidence_score : float;
  ask_confidence_category : string;
  ask_sources : list SourceChunk;
  ask_message : option string
}.

Record ExtractResponse : Type := MkExtractResponse {
  extract_success : bool;
  extract_document_id : string;
  shipment_data : Extractor.ShipmentData;
  extract_message : option string
}.

(** What leaves an endpoint instead of a response: an [HTTPException] that
    the endpoint built, or one raised below it and re-raised as it is. *)
Inductive failure : Type :=
  | HTTPException (status_code : nat) (detail : string)
  | Reraised (e : exception).

(** [isinstance(e, HTTPException)] *)
Definition is_http_exception (e : exception) : bool :=
  isinstance e (OtherError "HTTPException").

Section Endpoints.
Variable cfg : Settings.
Variable sum : list float -> float.
Variable json_loads : string -> result json.
Variable str_validator : json -> option string.

Context {Env Chroma : Type}.
Variable llm_invoke : string -> Env -> result string * Env.
Variable similarity_search_with_score :
  Chroma -> string -> nat -> Env -> result (list (Document * float)) * Env.
Variable chroma_similarity_search :
  Chroma -> string -> nat -> Env -> result (list Document) * Env.
Variable MistralAIEmbeddings : Env -> result unit * Env.
Variable Chroma_open : string -> Env -> result Chroma * Env.
Variable Chroma_bool : Chroma -> Env -> result bool * Env.
Variable elapse : Z -> Env -> Env.

(** The handlers of lines 203-210: an [HTTPException] passes, anything else
    becomes a 500 that quotes its text. *)
Definition to_http (prefix : string) (e : exception) : failure :=
  if is_http_exception e then Reraised e
  else HTTPException 500 (prefix ++ str e).

(** The first steps of both endpoints: [load_vector_store], then the test
    [if not vector_store]; [None] stands for a store that is absent or
    false. *)
Definition loaded (collection_name : string) : M Env (option Chroma) :=
  Sys.bind (VectorStore.load_vector_store Chroma_open collection_name)
    (fun vector_store =>
       Sys.bind (VectorStore.truth Chroma_bool vector_store)
         (fun truthy => Sys.ret (if truthy : bool then vector_store else None))).

(** [ask_question] (lines 152-210), on the registry [document_registry]. *)
Definition ask_question (document_registry : gmap string DocInfo)
    (document_id question : string) (w : World Env)
  : (AskResponse + failure) * World Env :=
  match document_registry !! document_id with
  | None =>
      (inr (HTTPException 404
              "Document not found. Please upload the document first."), w)
  | Some doc_info =>
      match loaded (collection_name doc_info) w with
      | (Raise e, w1) => (inr (to_http "Error processing question: " e), w1)
      | (Ok None, w1) =>
          (inr (HTTPException 500 "Failed to load document vector store"), w1)
      | (Ok (Some vector_store), w1) =>
          match RagEngine.ask_question cfg sum llm_invoke
                  similarity_search_with_score MistralAIEmbeddings elapse
                  vector_store question w1 with
          | (Raise e, w2) => (inr (to_http "Error processing question: " e), w2)
          | (Ok result, w2) =>
              let sources :=
                map (fun source =>
                       MkSourceChunk (RagEngine.content source)
                                     (RagEngine.similarity_score source)
                                     (RagEngine.source_metadata source))
                    (RagEngine.sources result) in
              (inl (MkAskResponse true (RagEngine.answer result)
                      (RagEngine.confidence_score result)
                      (RagEngine.confidence_category result)
                      sources None), w2)
          end
      end
  end.

(** [extract_structured_data] (lines 212-258) *)
Definition extract_structured_data (document_registry : gmap string DocInfo)
    (document_id : string) (w : World Env)
  : (ExtractResponse + failure) * World Env :=
  match document_registry !! document_id with
  | None =>
      (inr (HTTPException 404
              "Document not found. Please upload the document first."), w)
  | Some doc_info =>
      match loaded (collection_name doc_info) w with
      | (Raise e, w1) => (inr (to_http "Error extracting data: " e), w1)
      | (Ok None, w1) =>
          (inr (HTTPException 500 "Failed to load document vector store"), w1)
      | (Ok (Some vector_store), w1) =>
          match Extractor.extract_shipment_data json_loads str_validator
                  llm_invoke chroma_similarity_search elapse
                  vector_store document_id w1 with
          | (Raise e, w2) => (inr (to_http "Error extracting data: " e), w2)
          | (Ok shipment_data, w2) =>
              (inl (MkExtractResponse true document_id shipment_data
                      (Some "Structured data extracted successfully")), w2)
          end
      end
  end.

End Endpoints.

End App.

(* ===================================================================== *)
(** ** What the properties below speak of *)
(* ===================================================================== *)

Module Observe.
Import Py Sys.

(** The prompt that [generate_answer] sends for a question and the chunks
    retrieved (lines 173-183). *)
Definition answer_prompt (question : string)
    (retrieved_docs : list (Document * float)) : string :=
  RagEngine._create_prompt question
    (join "

---

" (RagEngine.source_blocks 0 (map fst retrieved_docs))).

(** The ["sources"] entry that [generate_answer] builds (lines 200-207). *)
Definition reported_sources (retrieved_docs : list (Document * float))
  : list RagEngine.Source :=
  map (fun ds => RagEngine.MkSource (page_content (fst ds))
                                    (round (1 - snd ds)%float 3)
                                    (metadata (fst ds)))
      retrieved_docs.

(** The calls to the language model logged so far. *)
Definition llm_events {Env} (w : World Env) : list event :=
  filter is_llm_invoke (events w).

(** The log of a call that attempts three times with the same prompt. *)
Definition three_attempts (prompt : string) : list event :=
  [LlmInvoke prompt; Sleep 1; LlmInvoke prompt; Sleep 2; LlmInvoke prompt].

(** The prompt that [extract_shipment_data] sends when the index returned
    [results]. *)
Definition extraction_prompt (results : list Document) : string :=
  Extractor._create_extraction_prompt (join "

" (map page_content results)).

(** [marker in str(e).lower()] *)
Definition text_has (e : exception) (marker : string) : bool :=
  contains marker (lower (str e)).

(** The failures that get another attempt, spelled out: the text carries
    one of six markers, or the exception is an instance of one of five
    classes. *)
Definition transient_failure (e : exception) : bool :=
  text_has e "rate limit" || text_has e "429"
  || text_has e "token limit" || text_has e "tokens"
  || text_has e "503" || text_has e "service unavailable"
  || isinstance e RateLimitError || isinstance e TokenLimitError
  || isinstance e ServiceUnavailableError || isinstance e ConnectionError
  || isinstance e TimeoutError.

(** What reaches the caller in place of a last error [e], spelled out: [e]
    itself when its text carries none of the six markers, and otherwise an
    exception of the class of the first marker found, with the same text,
    raised from [e]. *)
Definition raised_for (e : exception) : exception :=
  if text_has e "rate limit" || text_has e "429"
  then Exc RateLimitError (str e) (Some e)
  else if text_has e "token limit" || text_has e "tokens"
  then Exc TokenLimitError (str e) (Some e)
  else if text_has e "503" || text_has e "service unavailable"
  then Exc ServiceUnavailableError (str e) (Some e)
  else e.

(** The JSON object that holds a record: every field under its name, an
    absent one as [null]. *)
Definition as_json (r : Extractor.ShipmentData) : gmap string json :=
  list_to_map
    (map (fun field : string * (Extractor.ShipmentData -> option string) =>
            (fst field,
             match snd field r with Some s => JStr s | None => JNull end))
         Extractor.fields).

(** The field value [s] is read off the object [kwargs]: it is the string
    under the field's name, or what the validator makes of another value
    there. *)
Definition read_from (str_validator : json -> option string)
    (kwargs : gmap string json) (name s : string) : Prop :=
  exists value, kwargs !! name = Some value /\
    (value = JStr s \/ str_validator value = Some s).

(** The field [value] of a record built from the object [kwargs]: a string
    under the field's name is kept as it is, also when empty; no entry, or
    [null], gives an absent field; and a field holds nothing that was not
    read off the object. *)
Definition field_of (str_validator : json -> option string)
    (kwargs : gmap string json) (name : string) (value : option string)
  : Prop :=
  (forall s, kwargs !! name = Some (JStr s) -> value = Some s) /\
  (kwargs !! name = None \/ kwargs !! name = Some JNull -> value = None) /\
  (forall s, value = Some s -> read_from str_validator kwargs name s).

End Observe.

(* ===================================================================== *)
(** ** Sample services *)
(* ===================================================================== *)

Module Fixtures.
Import Py Sys.

(** Remote services without state of their own. *)
Definition still (seconds : Z) (e : unit) : unit := e.

Definition start : World unit := MkWorld tt [].

(** A model that always gives the same answer. *)
Definition llm_says (text : string) (prompt : string) (e : unit)
  : result string * unit := (Ok text, e).

(** A model that is always rate limited. *)
Definition llm_429 (prompt : string) (e : unit) : result string * unit :=
  (Raise Samples.api_429, e).

Definition embeddings_ok (e : unit) : result unit * unit := (Ok tt, e).

Definition rate_chunk : Document :=
  MkDocument "Rate: 1200 USD" (<["chunk_index" := JInt 0]> ∅).

Definition carrier_chunk : Document :=
  MkDocument "Carrier: ACME Freight" (<["chunk_index" := JInt 1]> ∅).

Definition two_chunks : list (Document * float) :=
  [(rate_chunk, 0.25%float); (carrier_chunk, 0.5%float)].

(** An index that returns the same chunks for every query. *)
Definition index_finds (found : list Document)
    (vector_store : unit) (query : string) (k : nat) (e : unit)
  : result (list Document) * unit := (Ok found, e).

(** An index whose search always fails with [e]. *)
Definition index_fails (e : exception)
    (vector_store : unit) (query : string) (k : nat) (env : unit)
  : result (list (Document * float)) * unit := (Raise e, env).

(** A splitter that cuts every document into the same two chunks. *)
Definition split_in_two (documents : list Document)
  : result (list Document) := Ok [rate_chunk; carrier_chunk].

(** A registry with one uploaded document. *)
Definition one_document : gmap string App.DocInfo :=
  {["doc-1" := App.MkDocInfo "bol.pdf" "uploads/doc-1_bol.pdf" "doc_doc-1" 2]}.

(** An index in which every collection opens and is not empty. *)
Definition opens (collection_name : string) (e : unit) : result unit * unit :=
  (Ok tt, e).

Definition not_empty (vector_store : unit) (e : unit) : result bool * unit :=
  (Ok true, e).

(** A parser that accepts nothing, and a validator that coerces nothing. *)
Definition loads_nothing (text : string) : result json :=
  Raise (Exc JSONDecodeError "Expecting value" None).

Definition coerces_nothing (value : json) : option string := None.

(** A printer of floats that is good for one value. *)
Definition prints_70 (x : float) : string := "70.0".

(** An index that returns the same scored chunks for every query. *)
Definition index_scores (found : list (Document * float))
    (vector_store : unit) (query : string) (k : nat) (e : unit)
  : result (list (Document * float)) * unit := (Ok found, e).

(** Three chunks at the distances 0.1, 0.3 and 0.2, and one chunk far from
    the question. *)
Definition three_chunks : list (Document * float) :=
  [(rate_chunk, 0.1%float); (carrier_chunk, 0.3%float); (rate_chunk, 0.2%float)].

Definition far_chunk : list (Document * float) :=
  [(carrier_chunk, 0.95%float)].

(** An index whose plain search always fails with [e]. *)
Definition search_fails (e : exception)
    (vector_store : unit) (query : string) (k : nat) (env : unit)
  : result (list Document) * unit := (Raise e, env).

(** The text of a JSON object whose members are strings. *)
Definition quoted (s : string) : string :=
  Extractor.dquote ++ s ++ Extractor.dquote.

Definition member (name value : string) : string :=
  quoted name ++ ": " ++ quoted value.

Definition object_text (members : list string) : string :=
  "{" ++ join ", " members ++ "}".

(** [json.loads] cut down to one text: it maps [text], with white space
    around it or not, to [value], and rejects anything else. *)
Definition loads_only (text : string) (value : json) (s : string)
  : result json :=
  if String.eqb (strip s) text then Ok value
  else Raise (Exc JSONDecodeError "Expecting value" None).

(** A record with every field filled in, and the JSON text of it. *)
Definition bill_of_lading : Extractor.ShipmentData :=
  Extractor.MkShipmentData
    (Some "SHP-1042") (Some "Acme Corp") (Some "Globex LLC")
    (Some "2024-03-01 08:00") (Some "2024-03-04 17:00")
    (Some "53' Dry Van") (Some "FTL") (Some "1,200.00") (Some "USD")
    (Some "42,000 lbs") (Some "ACME Freight").

Definition bill_of_lading_text : string :=
  object_text
    [member "shipment_id" "SHP-1042"; member "shipper" "Acme Corp";
     member "consignee" "Globex LLC";
     member "pickup_datetime" "2024-03-01 08:00";
     member "delivery_datetime" "2024-03-04 17:00";
     member "equipment_type" "53' Dry Van"; member "mode" "FTL";
     member "rate" "1,200.00"; member "currency" "USD";
     member "weight" "42,000 lbs"; member "carrier_name" "ACME Freight"].

(** The JSON text of an object whose only member is an empty shipment id,
    and the object. *)
Definition blank_id_text : string := object_text [member "shipment_id" ""].

Definition blank_id : gmap string json := {["shipment_id" := JStr ""]}.

End Fixtures.

(* ===================================================================== *)
(** * Properties *)
(* ===================================================================== *)

(** ** The retry wrapper *)

Section RetryFacts.
Import Py RetryUtils.
Local Open Scope list_scope.
Context {S A : Type} (sleep : Z -> S -> S).
Implicit Types (func fn : S -> result A * S) (s : S) (e : exception).

Lemma wrapper_ok func s v s' :
  func s = (Ok v, s') -> wrapper func s = (Ok v, s').
Proof. unfold wrapper. now intros ->. Qed.

Lemma wrapper_raise func s e s' :
  func s = (Raise e, s') -> wrapper func s = (Raise (reclassify e), s').
Proof. unfold wrapper. now intros ->. Qed.

(** The three ways an attempt can go. *)
Lemma attempt_loop_ok left n slept fn s v s1 :
  fn s = (Ok v, s1) ->
  attempt_loop sleep left n slept fn s = MkRun (Ok v) s1 n slept.
Proof. destruct left; simpl; now intros ->. Qed.

Lemma attempt_loop_fatal left n slept fn s e s1 :
  fn s = (Raise e, s1) -> retry_if_exception_type e = false ->
  attempt_loop sleep left n slept fn s = MkRun (Raise e) s1 n slept.
Proof. destruct left; simpl; now intros -> ->. Qed.

Lemma attempt_loop_last n slept fn s e s1 :
  fn s = (Raise e, s1) ->
  attempt_loop sleep 0 n slept fn s = MkRun (Raise e) s1 n slept.
Proof. simpl. intros ->. now destruct (retry_if_exception_type e). Qed.

Lemma attempt_loop_again left n slept fn s e s1 :
  fn s = (Raise e, s1) -> retry_if_exception_type e = true ->
  attempt_loop sleep (Datatypes.S left) n slept fn s =
  attempt_loop sleep left (Datatypes.S n) (slept ++ [wait_exponential n]) fn
               (sleep (wait_exponential n) s1).
Proof. simpl. now intros -> ->. Qed.

(** The loop only ever adds attempts and waits. *)
Lemma attempt_loop_grows left : forall n slept fn s,
  (n <= attempts (attempt_loop sleep left n slept fn s))%nat /\
  exists more, waits (attempt_loop sleep left n slept fn s) = slept ++ more.
Proof.
  induction left as [|left IH]; intros n slept fn s; simpl;
    destruct (fn s) as [[v|e] s1]; simpl;
    try (split; [lia | exists []; now rewrite app_nil_r]).
  - destruct (retry_if_exception_type e); simpl;
      (split; [lia | exists []; now rewrite app_nil_r]).
  - destruct (retry_if_exception_type e); simpl.
    + destruct (IH (Datatypes.S n) (slept ++ [wait_exponential n]) fn
                   (sleep (wait_exponential n) s1)) as [Hn [more Hm]].
      split; [lia|]. exists (wait_exponential n :: more).
      rewrite Hm, <- app_assoc. reflexivity.
    + split; [lia | exists []; now rewrite app_nil_r].
Qed.

(** The outcome of the loop is the outcome of its last attempt. *)
Lemma attempt_loop_last_attempt left : forall n slept fn s,
  exists s0, fn s0 = (outcome (attempt_loop sleep left n slept fn s),
                      final (attempt_loop sleep left n slept fn s)).
Proof.
  induction left as [|left IH]; intros n slept fn s; simpl;
    destruct (fn s) as [[v|e] s1] eqn:E; simpl; try (now exists s).
  - destruct (retry_if_exception_type e); now exists s.
  - destruct (retry_if_exception_type e); simpl; [apply IH | now exists s].
Qed.

(** At most [max_attempt_number] attempts, whatever the operation does. *)
Lemma attempt_loop_bound left : forall n slept fn s,
  (attempts (attempt_loop sleep left n slept fn s) <= n + left)%nat.
Proof.
  induction left as [|left IH]; intros n slept fn s; simpl;
    destruct (fn s) as [[v|e] s1]; simpl; try lia.
  - destruct (retry_if_exception_type e); simpl; lia.
  - destruct (retry_if_exception_type e); simpl; [|lia].
    specialize (IH (Datatypes.S n) (slept ++ [wait_exponential n]) fn
                   (sleep (wait_exponential n) s1)). lia.
Qed.

Lemma retry_on_api_error_ok func s v s' :
  func s = (Ok v, s') -> retry_on_api_error sleep func s = (Ok v, s').
Proof.
  intros H. unfold retry_on_api_error, retry_run.
  now rewrite (attempt_loop_ok _ _ _ _ _ _ _ (wrapper_ok _ _ _ _ H)).
Qed.

Lemma retry_on_api_error_inv func s r s' :
  retry_on_api_error sleep func s = (r, s') ->
  exists s0, wrapper func s0 = (r, s').
Proof.
  unfold retry_on_api_error, retry_run. intros H.
  destruct (attempt_loop_last_attempt (max_attempt_number - 1) 1 []
              (wrapper func) s) as [s0 Hs0].
  exists s0. now rewrite Hs0.
Qed.

Lemma retry_on_api_error_ok_inv func s v s' :
  retry_on_api_error sleep func s = (Ok v, s') ->
  exists s0, func s0 = (Ok v, s').
Proof.
  intros H. destruct (retry_on_api_error_inv _ _ _ _ H) as [s0 Hs0].
  exists s0. unfold wrapper in Hs0.
  destruct (func s0) as [[v'|e] s1]; congruence.
Qed.

Lemma retry_on_api_error_raise_inv func s x s' :
  retry_on_api_error sleep func s = (Raise x, s') ->
  exists s0 e, func s0 = (Raise e, s') /\ x = reclassify e.
Proof.
  intros H. destruct (retry_on_api_error_inv _ _ _ _ H) as [s0 Hs0].
  exists s0. unfold wrapper in Hs0.
  destruct (func s0) as [[v'|e] s1]; inversion Hs0; subst. now exists e.
Qed.

End RetryFacts.

Section RetryPolicy.
Import Py RetryUtils.
Local Open Scope list_scope.
Context {S A : Type} (sleep : Z -> S -> S).
Implicit Types (func : S -> result A * S) (s : S) (e : exception).

Lemma retry_if_exception_type_converted m e :
  retry_if_exception_type (Exc RateLimitError m (Some e)) = true /\
  retry_if_exception_type (Exc TokenLimitError m (Some e)) = true /\
  retry_if_exception_type (Exc ServiceUnavailableError m (Some e)) = true.
Proof. repeat split. Qed.

(** What [wrapper] raises in place of [e]: [e] itself, or one of the three
    classes of the module raised from [e] with the same text. *)
Lemma reclassify_cases e :
  str (reclassify e) = str e /\
  (reclassify e = e \/
   (exc_cause (reclassify e) = Some e /\
    In (exc_cls (reclassify e))
       [RateLimitError; TokenLimitError; ServiceUnavailableError])).
Proof.
  unfold reclassify.
  destruct (is_retriable_error e); [|now split; [|left]].
  cbv zeta.
  destruct (contains "rate limit" _ || contains "429" _);
    [split; [reflexivity | right; split; [reflexivity | simpl; tauto]]|].
  destruct (contains "token limit" _ || contains "tokens" _);
    [split; [reflexivity | right; split; [reflexivity | simpl; tauto]]|].
  destruct (contains "503" _ || contains "service unavailable" _);
    [split; [reflexivity | right; split; [reflexivity | simpl; tauto]]|].
  now split; [|left].
Qed.

(** The errors that get another attempt: those whose text carries a
    conversion marker, and the instances of the five retry classes. *)
Lemma retried_spec e :
  retried e = conversion_marker e || retry_if_exception_type e.
Proof.
  unfold retried, reclassify, conversion_marker, is_retriable_error.
  cbv zeta.
  destruct (contains "rate limit" _), (contains "429" _),
    (contains "token limit" _), (contains "tokens" _),
    (contains "503" _), (contains "service unavailable" _),
    (contains "timeout" _); reflexivity.
Qed.

Lemma not_retriable_reclassify e :
  is_retriable_error e = false -> reclassify e = e.
Proof. unfold reclassify. now intros ->. Qed.

(** C4, as amended.  A failure is retried when its lower-cased text
    contains "rate limit", "429", "token limit", "tokens", "503" or
    "service unavailable", and also when it is an instance of one of the
    five retry classes, whatever its text: a second attempt is made after
    a wait of one second.  A failure that [is_retriable_error] rejects and
    that is not an instance of those classes reaches the caller on the
    first attempt, without any wait. *)
Theorem retry_by_marker_or_class func s e s' :
  func s = (Raise e, s') ->
  (conversion_marker e || retry_if_exception_type e = true ->
     (2 <= attempts (retry_run sleep func s))%nat /\
     exists more, waits (retry_run sleep func s) = 1 :: more) /\
  (is_retriable_error e = false -> retry_if_exception_type e = false ->
     retry_run sleep func s = MkRun (Raise e) s' 1 []).
Proof.
  intros Hf. split.
  - intros Hm. rewrite <- retried_spec in Hm. unfold retry_run.
    change (max_attempt_number - 1)%nat with 2%nat.
    rewrite (attempt_loop_again sleep 1 1 [] _ _ _ _
               (wrapper_raise _ _ _ _ Hf) Hm).
    destruct (attempt_loop_grows sleep 1 2 ([] ++ [wait_exponential 1])
                (wrapper func) (sleep (wait_exponential 1) s'))
      as [Hn [more Hw]].
    split; [exact Hn | exists more; exact Hw].
  - intros Hr Ht. unfold retry_run.
    apply attempt_loop_fatal.
    + rewrite (wrapper_raise _ _ _ _ Hf), (not_retriable_reclassify _ Hr).
      reflexivity.
    + exact Ht.
Qed.

Lemma retried_transient e : retried e = Observe.transient_failure e.
Proof.
  rewrite retried_spec.
  unfold conversion_marker, Observe.transient_failure, Observe.text_has,
    retry_if_exception_type, retry_exception_types. cbv zeta. cbn [existsb].
  destruct (contains "rate limit" _), (contains "429" _),
    (contains "token limit" _), (contains "tokens" _),
    (contains "503" _), (contains "service unavailable" _),
    (isinstance e RateLimitError), (isinstance e TokenLimitError),
    (isinstance e ServiceUnavailableError), (isinstance e ConnectionError),
    (isinstance e TimeoutError); reflexivity.
Qed.

Lemma reclassify_raised_for e : reclassify e = Observe.raised_for e.
Proof.
  unfold reclassify, Observe.raised_for, Observe.text_has, is_retriable_error.
  cbv zeta.
  destruct (contains "rate limit" _), (contains "429" _),
    (contains "token limit" _), (contains "tokens" _),
    (contains "503" _), (contains "service unavailable" _),
    (contains "timeout" _); reflexivity.
Qed.

(** C5, as amended.  Take a failure to be transient when its lower-cased
    text contains "rate limit", "429", "token limit", "tokens", "503" or
    "service unavailable", or when it is an instance of [RateLimitError],
    [TokenLimitError], [ServiceUnavailableError], [ConnectionError] or
    [TimeoutError].  After two transient failures, a success is returned
    unchanged, on the third attempt and after exactly the two waits of 1
    and 2 seconds; a third failure, of any kind, ends the call with no
    fourth attempt: the caller gets the last error itself when its text
    carries none of the six markers, and otherwise an exception with the
    same text raised from it, of class [RateLimitError] for "rate limit"
    or "429", else [TokenLimitError] for "token limit" or "tokens", else
    [ServiceUnavailableError]. *)
Theorem retry_policy func s0 e1 s1 e2 s2 :
  func s0 = (Raise e1, s1) -> Observe.transient_failure e1 = true ->
  func (sleep 1 s1) = (Raise e2, s2) -> Observe.transient_failure e2 = true ->
  (forall v s3, func (sleep 2 s2) = (Ok v, s3) ->
     retry_run sleep func s0 = MkRun (Ok v) s3 3 [1; 2]) /\
  (forall e3 s3, func (sleep 2 s2) = (Raise e3, s3) ->
     retry_run sleep func s0
     = MkRun (Raise (Observe.raised_for e3)) s3 3 [1; 2]).
Proof.
  intros H1 R1 H2 R2. rewrite <- retried_transient in R1, R2.
  assert (Hrun : retry_run sleep func s0 =
                 attempt_loop sleep 0 3 [1; 2] (wrapper func) (sleep 2 s2)).
  { unfold retry_run. change (max_attempt_number - 1)%nat with 2%nat.
    rewrite (attempt_loop_again sleep 1 1 [] _ _ _ _
               (wrapper_raise _ _ _ _ H1) R1).
    change (wait_exponential 1) with 1.
    rewrite (attempt_loop_again sleep 0 2 _ _ _ _ _
               (wrapper_raise _ _ _ _ H2) R2).
    reflexivity. }
  split.
  - intros v s3 H3. rewrite Hrun.
    apply attempt_loop_ok, wrapper_ok, H3.
  - intros e3 s3 H3. rewrite Hrun, <- reclassify_raised_for.
    apply attempt_loop_last, wrapper_raise, H3.
Qed.

End RetryPolicy.

Section RetryExamples.
Import Py RetryUtils Samples.
Local Open Scope list_scope.

Lemma retry_by_marker_or_class_witness :
  ((2 <= attempts (retry_run no_wait (always_raise api_429) 0%nat))%nat /\
   exists more, waits (retry_run no_wait (always_raise api_429) 0%nat) = 1 :: more)
  /\ retry_run no_wait (always_raise value_error) 0%nat
     = MkRun (Raise value_error) 1%nat 1%nat [].
Proof.
  split.
  - apply (proj1 (retry_by_marker_or_class no_wait (always_raise api_429)
                    0%nat api_429 1%nat eq_refl)).
    reflexivity.
  - apply (proj2 (retry_by_marker_or_class no_wait (always_raise value_error)
                    0%nat value_error 1%nat eq_refl)); reflexivity.
Defined.

(** C4 as stated fails: an error whose text contains no marker at all is
    retried when it is a [ConnectionError]; all three attempts and both
    waits are spent on it. *)
Lemma connection_error_retried_without_marker :
  has_marker connection_error = false /\
  retry_run no_wait (always_raise connection_error) 0%nat
  = MkRun (Raise connection_error) 3%nat 3%nat [1; 2].
Proof. split; reflexivity. Qed.

(** The other direction also fails, by an omission in [wrapper]: a generic
    exception whose text says "timeout" is classified retriable by
    [is_retriable_error], but no branch converts it, and it is raised on
    the first attempt. *)
Example timeout_text_not_retried :
  is_retriable_error request_timeout = true /\
  has_marker request_timeout = true /\
  retry_run no_wait (always_raise request_timeout) 0%nat
  = MkRun (Raise request_timeout) 1%nat 1%nat [].
Proof. repeat split; reflexivity. Qed.

Lemma retry_policy_witness :
  retry_run no_wait (fail_then_return 2 connection_error "done") 0%nat
  = MkRun (Ok "done"%string) 3%nat 3%nat [1; 2]
  /\ retry_run no_wait (always_raise api_429) 0%nat
     = MkRun (Raise (Exc RateLimitError (str api_429) (Some api_429)))
             3%nat 3%nat [1; 2].
Proof.
  split.
  - apply (proj1 (retry_policy no_wait
                    (fail_then_return 2 connection_error "done")
                    0%nat connection_error 1%nat connection_error 2%nat
                    eq_refl eq_refl eq_refl eq_refl)).
    reflexivity.
  - apply (proj2 (retry_policy no_wait (always_raise api_429)
                    0%nat api_429 1%nat api_429 2%nat
                    eq_refl eq_refl eq_refl eq_refl) api_429 3%nat).
    reflexivity.
Defined.

(** C5 as stated fails on "unchanged in kind": the provider's error for an
    HTTP 429 reaches the caller, after the third attempt, as a
    [RateLimitError]. *)
Lemma reraised_error_changes_kind :
  attempts (retry_run no_wait (always_raise api_429) 0%nat) = 3%nat /\
  outcome (retry_run no_wait (always_raise api_429) 0%nat)
  = Raise (Exc RateLimitError (str api_429) (Some api_429)) /\
  exc_cls api_429 <> RateLimitError.
Proof. repeat split; try reflexivity. discriminate. Qed.

End RetryExamples.

(** ** Further properties of the retry wrapper *)

Section RetryBounds.
Import Py RetryUtils.
Local Open Scope list_scope.
Context {S A : Type} (sleep : Z -> S -> S).
Implicit Types (func : S -> result A * S) (s : S) (e : exception).

(** X1.  Whatever the operation does, a decorated call makes one, two or three
    attempts, and sleeps between consecutive attempts only: first one
    second, then two. *)
Theorem retry_run_bounded func s :
  (1 <= attempts (retry_run sleep func s) <= 3)%nat /\
  waits (retry_run sleep func s)
  = firstn (attempts (retry_run sleep func s) - 1) [1; 2].
Proof.
  unfold retry_run. change (max_attempt_number - 1)%nat with 2%nat.
  cbn [attempt_loop].
  destruct (wrapper func s) as [[v|e] s1];
    [cbn; split; [lia | reflexivity]|].
  destruct (retry_if_exception_type e); cbn [negb];
    [|cbn; split; [lia | reflexivity]].
  destruct (wrapper func (sleep _ s1)) as [[v|e'] s2];
    [cbn; split; [lia | reflexivity]|].
  destruct (retry_if_exception_type e'); cbn [negb];
    [|cbn; split; [lia | reflexivity]].
  destruct (wrapper func (sleep _ s2)) as [[v|e''] s3];
    [cbn; split; [lia | reflexivity]|].
  destruct (retry_if_exception_type e''); cbn; split; (lia || reflexivity).
Qed.

(** X2.  A decorated call invents nothing: the value it returns was returned,
    unchanged, by an attempt of the operation that left the final state,
    and the exception it raises is what [wrapper] made of the exception of
    such an attempt. *)
Theorem retry_outcome_from_last_attempt func s :
  exists s0,
    match retry_on_api_error sleep func s with
    | (Ok v, s') => func s0 = (Ok v, s')
    | (Raise x, s') => exists e, func s0 = (Raise e, s') /\ x = reclassify e
    end.
Proof.
  destruct (retry_on_api_error sleep func s) as [[v|x] s'] eqn:E.
  - apply (retry_on_api_error_ok_inv sleep _ _ _ _ E).
  - destruct (retry_on_api_error_raise_inv sleep _ _ _ _ E) as [s0 [e He]].
    exists s0, e. exact He.
Qed.

Lemma RetryUtils_attempts_range func s :
  (1 <= attempts (retry_run sleep func s) <= 3)%nat.
Proof.
  unfold retry_run. change (max_attempt_number - 1)%nat with 2%nat.
  pose proof (attempt_loop_grows sleep 2 1 [] (wrapper func) s) as [H _].
  pose proof (attempt_loop_bound sleep 2 1 [] (wrapper func) s). lia.
Qed.

End RetryBounds.

Section RetryClassification.
Import Py RetryUtils.

Lemma char_lower_idempotent c : char_lower (char_lower c) = char_lower c.
Proof. destruct c as [[] [] [] [] [] [] [] []]; reflexivity. Qed.

Lemma lower_idempotent s : lower (lower s) = lower s.
Proof.
  induction s as [|c s IH]; [reflexivity|].
  cbn [lower]. now rewrite char_lower_idempotent, IH.
Qed.

(** X3.  The classification reads the exception's text only, and reads it
    without regard to letter case: neither the class of the exception, nor
    its cause, nor lower-casing its text changes the verdict. *)
Theorem is_retriable_error_by_text_only cls msg cause cls' cause' :
  is_retriable_error (Exc cls msg cause)
  = is_retriable_error (Exc cls' (lower msg) cause').
Proof.
  unfold is_retriable_error. cbn [str]. now rewrite lower_idempotent.
Qed.

(** X4.  The backoff of [wait_exponential(multiplier=1, min=1, max=10)]: never
    below one second nor above ten, never decreasing, doubling from one
    second up to eight and ten from the fifth attempt on. *)
Theorem wait_exponential_bounds (attempt_number : nat) :
  1 <= wait_exponential attempt_number <= 10 /\
  wait_exponential attempt_number <= wait_exponential (Datatypes.S attempt_number) /\
  wait_exponential attempt_number
  = (if (attempt_number <=? 1)%nat then 1
     else if (attempt_number <=? 4)%nat then 2 ^ (Z.of_nat attempt_number - 1)
     else 10).
Proof.
  assert (Hbig : forall n, (5 <= n)%nat -> wait_exponential n = 10).
  { intros n Hn. unfold wait_exponential.
    assert (2 ^ 4 <= 2 ^ (Z.of_nat n - 1)) by (apply Z.pow_le_mono_r; lia).
    change (2 ^ 4) with 16 in *. lia. }
  destruct attempt_number as [|[|[|[|[|n]]]]];
    try (repeat split; vm_compute; congruence).
  - split; [|split].
    + rewrite Hbig by lia. lia.
    + rewrite !Hbig by lia. lia.
    + rewrite Hbig by lia. reflexivity.
Qed.

(** An error that gets no other attempt leaves [wrapper] as it came. *)
Lemma not_retried_reclassify e : retried e = false -> reclassify e = e.
Proof.
  unfold retried, reclassify, is_retriable_error. cbv zeta.
  destruct (contains "rate limit" _), (contains "429" _),
    (contains "token limit" _), (contains "tokens" _),
    (contains "503" _), (contains "service unavailable" _),
    (contains "timeout" _); cbn; (reflexivity || discriminate).
Qed.

(** A decorated call whose first attempt fails with an error that is not
    retried raises that error at once. *)
Lemma retry_on_api_error_fatal {S A} (sleep : Z -> S -> S)
    (func : S -> result A * S) s e s' :
  func s = (Raise e, s') -> retried e = false ->
  retry_on_api_error sleep func s = (Raise e, s').
Proof.
  intros Hf Hr. unfold retry_on_api_error, retry_run.
  erewrite attempt_loop_fatal;
    [| exact (wrapper_raise _ _ _ _ Hf) | exact Hr].
  cbn. now rewrite (not_retried_reclassify _ Hr).
Qed.

End RetryClassification.

(** ** The answer engine *)

Section EngineFacts.
Import Py Sys Config RagEngine Observe.
Local Open Scope list_scope.
Variable cfg : Settings.
Variable sum : list float -> float.
Context {Env Chroma : Type}.
Variable llm_invoke : string -> Env -> result string * Env.
Variable similarity_search_with_score :
  Chroma -> string -> nat -> Env -> result (list (Document * float)) * Env.
Variable MistralAIEmbeddings : Env -> result unit * Env.
Variable elapse : Z -> Env -> Env.

Abbreviation body := (generate_answer_body cfg sum llm_invoke).
Abbreviation generate := (generate_answer cfg sum llm_invoke elapse).
Abbreviation ask :=
  (ask_question cfg sum llm_invoke similarity_search_with_score
                MistralAIEmbeddings elapse).

(** One attempt of [generate_answer], step by step. *)
Lemma generate_answer_body_run question retrieved_docs (w : World Env) :
  body question retrieved_docs w =
  let prompt := answer_prompt question retrieved_docs in
  let w1 e' := MkWorld e' (events w ++ [LlmInvoke prompt]) in
  match llm_invoke prompt (env w) with
  | (Raise e, e') => (Raise e, w1 e')
  | (Ok generated, e') =>
      match calculate_confidence_score cfg sum (map snd retrieved_docs)
              generated (map fst retrieved_docs) with
      | Raise e => (Raise e, w1 e')
      | Ok (confidence, category) =>
          match apply_guardrails cfg sum confidence (map snd retrieved_docs) with
          | Raise e => (Raise e, w1 e')
          | Ok passes =>
              (Ok (MkAnswer (if negb passes then abstention_text else generated)
                            (round confidence 3)
                            (if negb passes then "low"%string else category)
                            (reported_sources retrieved_docs) passes),
               w1 e')
          end
      end
  end.
Proof.
  unfold generate_answer_body, try_except, bind, call, lift, ret, raise,
    answer_prompt, reported_sources.
  cbv zeta.
  destruct (llm_invoke _ (env w)) as [[generated|e] e']; [|reflexivity].
  destruct (calculate_confidence_score _ _ _ _ _) as [[confidence category]|e];
    [|reflexivity].
  cbn [fst snd].
  destruct (apply_guardrails _ _ _ _) as [passes|e]; reflexivity.
Qed.

(** Each attempt logs exactly one call to the model, with the same
    prompt. *)
Lemma generate_answer_body_events question retrieved_docs (w : World Env) :
  events (snd (body question retrieved_docs w))
  = events w ++ [LlmInvoke (answer_prompt question retrieved_docs)].
Proof.
  rewrite generate_answer_body_run. cbv zeta.
  destruct (llm_invoke _ (env w)) as [[generated|e] e']; [|reflexivity].
  destruct (calculate_confidence_score _ _ _ _ _) as [[confidence category]|e];
    [|reflexivity].
  destruct (apply_guardrails _ _ _ _) as [passes|e]; reflexivity.
Qed.

Lemma wrapper_events {A} (func : World Env -> result A * World Env) w :
  events (snd (RetryUtils.wrapper func w)) = events (snd (func w)).
Proof. unfold RetryUtils.wrapper. now destruct (func w) as [[v|e] w1]. Qed.

(** The log of a decorated call whose every attempt logs the one event
    [ev]: as many [ev] as attempts, with the waits in between. *)
Lemma retry_events_one_per_attempt {A}
    (func : World Env -> result A * World Env) (ev : event) w :
  (forall w0, events (snd (func w0)) = events w0 ++ [ev]) ->
  let run := RetryUtils.retry_run (sleep elapse) func w in
  events (RetryUtils.final run)
  = events w ++ firstn (2 * RetryUtils.attempts run - 1)
                       [ev; Sleep 1; ev; Sleep 2; ev].
Proof.
  intros Hev. cbv zeta. unfold RetryUtils.retry_run.
  change (RetryUtils.max_attempt_number - 1)%nat with 2%nat.
  cbn [RetryUtils.attempt_loop].
  pose proof (wrapper_events func w) as E1. rewrite Hev in E1.
  destruct (RetryUtils.wrapper func w) as [[v|e] w1]; cbn [snd] in E1;
    [cbn; exact E1|].
  destruct (RetryUtils.retry_if_exception_type e); cbn [negb];
    [|cbn; exact E1].
  change (RetryUtils.wait_exponential 1) with 1.
  pose proof (wrapper_events func (sleep elapse 1 w1)) as E2.
  rewrite Hev in E2. cbn [sleep events] in E2. rewrite E1 in E2.
  rewrite <- !app_assoc in E2. cbn [app] in E2.
  destruct (RetryUtils.wrapper func (sleep elapse 1 w1)) as [[v|e'] w2];
    cbn [snd] in E2; [cbn; exact E2|].
  destruct (RetryUtils.retry_if_exception_type e'); cbn [negb];
    [|cbn; exact E2].
  change (RetryUtils.wait_exponential 2) with 2.
  pose proof (wrapper_events func (sleep elapse 2 w2)) as E3.
  rewrite Hev in E3. cbn [sleep events] in E3. rewrite E2 in E3.
  rewrite <- !app_assoc in E3. cbn [app] in E3.
  destruct (RetryUtils.wrapper func (sleep elapse 2 w2)) as [[v|e''] w3];
    cbn [snd] in E3; [cbn; exact E3|].
  destruct (RetryUtils.retry_if_exception_type e''); cbn; exact E3.
Qed.

(** X5.  A call of [generate_answer] asks the model once, twice or three times,
    always with the same prompt, and sleeps one second after the first
    failed attempt and two after the second: nothing else is logged. *)
Theorem generate_answer_calls_model_at_most_thrice
    question retrieved_docs (w : World Env) :
  exists n, (1 <= n <= 3)%nat /\
    events (snd (generate question retrieved_docs w))
    = events w ++ firstn (2 * n - 1)
                         (three_attempts (answer_prompt question retrieved_docs)).
Proof.
  exists (RetryUtils.attempts
            (RetryUtils.retry_run (sleep elapse) (body question retrieved_docs) w)).
  split; [apply RetryUtils_attempts_range|].
  unfold generate_answer, RetryUtils.retry_on_api_error. cbn [snd].
  apply (retry_events_one_per_attempt (body question retrieved_docs)).
  intros w0. apply generate_answer_body_events.
Qed.

(** X6.  [generate_answer] on an empty retrieval list, the case [ask_question]
    filters out: the model is asked first, and only then does the average
    of no score raise [ZeroDivisionError], which is not retried. *)
Theorem generate_answer_empty_retrieval question (w : World Env) generated e' :
  llm_invoke (answer_prompt question []) (env w) = (Ok generated, e') ->
  generate question [] w
  = (Raise (Exc ZeroDivisionError "division by zero" None),
     MkWorld e' (events w ++ [LlmInvoke (answer_prompt question [])])).
Proof.
  intros Hllm. unfold generate_answer, RetryUtils.retry_on_api_error.
  assert (Hbody : body question [] w
                  = (Raise (Exc ZeroDivisionError "division by zero" None),
                     MkWorld e' (events w ++ [LlmInvoke (answer_prompt question [])]))).
  { rewrite generate_answer_body_run. cbv zeta. rewrite Hllm. reflexivity. }
  unfold RetryUtils.retry_run.
  erewrite attempt_loop_fatal;
    [reflexivity | exact (wrapper_raise _ _ _ _ Hbody) | reflexivity].
Qed.

(** X7.  What a returned answer reports besides its text: one source per
    retrieved chunk, in retrieval order, with the chunk's text and metadata
    and the similarity [round(1 - distance, 3)]; and as confidence the
    computed one rounded to three decimals.  The guardrail changes neither. *)
Theorem generate_answer_reports question retrieved_docs (w : World Env) r w' :
  generate question retrieved_docs w = (Ok r, w') ->
  sources r = reported_sources retrieved_docs /\
  length (sources r) = length retrieved_docs /\
  exists generated confidence category,
    calculate_confidence_score cfg sum (map snd retrieved_docs) generated
      (map fst retrieved_docs) = Ok (confidence, category) /\
    confidence_score r = round confidence 3.
Proof.
  intros H.
  destruct (retry_on_api_error_ok_inv _ _ _ _ _ H) as [w0 Hw0].
  rewrite generate_answer_body_run in Hw0. cbv zeta in Hw0.
  destruct (llm_invoke _ (env w0)) as [[generated|e] e']; [|discriminate].
  destruct (calculate_confidence_score _ _ _ _ _)
    as [[confidence category]|e] eqn:Hc; [|discriminate].
  destruct (apply_guardrails _ _ _ _) as [passes|e]; [|discriminate].
  inversion Hw0; subst r w'; cbn [sources confidence_score].
  split; [reflexivity|]. split.
  - unfold reported_sources. now rewrite length_map.
  - exists generated, confidence, category. now split.
Qed.

Lemma sleep_llm_events seconds (w : World Env) :
  llm_events (sleep elapse seconds w) = llm_events w.
Proof.
  unfold llm_events, sleep. cbn [events].
  rewrite filter_app. cbn. apply app_nil_r.
Qed.

(** Retrying an operation that does not call the model does not call it
    either. *)
Lemma attempt_loop_llm_events {A} (fn : World Env -> result A * World Env) :
  (forall w0, llm_events (snd (fn w0)) = llm_events w0) ->
  forall left n slept w,
    llm_events (RetryUtils.final
                  (RetryUtils.attempt_loop (sleep elapse) left n slept fn w))
    = llm_events w.
Proof.
  intros Hfn. induction left as [|left IH]; intros n slept w;
    cbn [RetryUtils.attempt_loop]; specialize (Hfn w);
    destruct (fn w) as [[v|e] w1]; cbn [snd] in Hfn; cbn [RetryUtils.final];
    try exact Hfn.
  - now destruct (negb _).
  - destruct (negb _); [exact Hfn|].
    rewrite IH, sleep_llm_events. exact Hfn.
Qed.

Lemma retry_llm_events {A} (func : World Env -> result A * World Env) w :
  (forall w0, llm_events (snd (func w0)) = llm_events w0) ->
  llm_events (snd (RetryUtils.retry_on_api_error (sleep elapse) func w))
  = llm_events w.
Proof.
  intros Hf. unfold RetryUtils.retry_on_api_error. cbn [snd].
  apply attempt_loop_llm_events. intros w0.
  unfold RetryUtils.wrapper. specialize (Hf w0).
  now destruct (func w0) as [[v|e] w1].
Qed.

Lemma call_llm_events {A} (ev : event) (service : Env -> result A * Env)
    (handler : exception -> M Env A) (w : World Env) :
  is_llm_invoke ev = false ->
  llm_events (snd (try_except (call ev service) (fun e => raise e) w))
  = llm_events w.
Proof.
  intros Hev. unfold try_except, call, raise, llm_events.
  destruct (service (env w)) as [[v|e] e']; cbn [snd events];
    (rewrite filter_app, filter_cons_False, filter_nil;
     [apply app_nil_r | rewrite Hev; exact id]).
Qed.

Lemma VectorStoreManager_llm_events (w : World Env) :
  llm_events (snd (VectorStoreManager MistralAIEmbeddings elapse w))
  = llm_events w.
Proof.
  unfold VectorStoreManager. apply retry_llm_events. intros w0.
  now apply (call_llm_events InitEmbeddings _ (fun e => raise e)).
Qed.

Lemma similarity_search_llm_events vector_store query k (w : World Env) :
  llm_events (snd (similarity_search cfg similarity_search_with_score elapse
                     vector_store query k w))
  = llm_events w.
Proof.
  unfold similarity_search. apply retry_llm_events. intros w0.
  now apply (call_llm_events (Search query _) _ (fun e => raise e)).
Qed.

(** X8.  [ask_question] calls the model only for chunks: unless the embeddings
    client was set up and the search returned at least one chunk, no call to
    the model is logged, whether the pipeline then returns the
    no-information answer or raises. *)
Theorem ask_question_calls_model_only_for_chunks vector_store question
    (w : World Env) :
  llm_events (snd (ask vector_store question w)) = llm_events w \/
  exists w0 w1 first rest,
    VectorStoreManager MistralAIEmbeddings elapse w = (Ok tt, w0) /\
    similarity_search cfg similarity_search_with_score elapse vector_store
      question (Some (TOP_K_RETRIEVAL cfg)) w0 = (Ok (first :: rest), w1).
Proof.
  unfold ask_question, bind.
  pose proof (VectorStoreManager_llm_events w) as Hinit.
  destruct (VectorStoreManager MistralAIEmbeddings elapse w)
    as [[[]|e] w0] eqn:Einit; cbn [snd] in Hinit; [|left; exact Hinit].
  pose proof (similarity_search_llm_events vector_store question
                (Some (TOP_K_RETRIEVAL cfg)) w0) as Hsearch.
  destruct (similarity_search cfg similarity_search_with_score elapse
              vector_store question (Some (TOP_K_RETRIEVAL cfg)) w0)
    as [[[|first rest]|e] w1] eqn:Esearch; cbn [snd] in Hsearch.
  - left. cbn. congruence.
  - right. exists w0, w1, first, rest. split; [reflexivity | exact Esearch].
  - left. cbn. congruence.
Qed.

(** X9.  A failed search is not mistaken for an empty one: when the embeddings
    client is set up and the index then fails with an error that is not
    retried, [ask_question] raises that very error after this one search,
    without any wait and without asking the model. *)
Theorem ask_question_search_failure vector_store question (w : World Env)
    e0 e e1 :
  MistralAIEmbeddings (env w) = (Ok tt, e0) ->
  similarity_search_with_score vector_store question (TOP_K_RETRIEVAL cfg) e0
  = (Raise e, e1) ->
  RetryUtils.retried e = false ->
  ask vector_store question w
  = (Raise e,
     MkWorld e1 (events w ++ [InitEmbeddings;
                              Search question (TOP_K_RETRIEVAL cfg)])).
Proof.
  intros Hinit Hsearch Hfatal. unfold ask_question, bind.
  assert (H1 : VectorStoreManager MistralAIEmbeddings elapse w
               = (Ok tt, MkWorld e0 (events w ++ [InitEmbeddings]))).
  { unfold VectorStoreManager. apply retry_on_api_error_ok.
    unfold try_except, call. now rewrite Hinit. }
  rewrite H1.
  assert (H2 : similarity_search cfg similarity_search_with_score elapse
                 vector_store question (Some (TOP_K_RETRIEVAL cfg))
                 (MkWorld e0 (events w ++ [InitEmbeddings]))
               = (Raise e,
                  MkWorld e1 (events w ++ [InitEmbeddings;
                                           Search question (TOP_K_RETRIEVAL cfg)]))).
  { unfold similarity_search. apply retry_on_api_error_fatal; [|exact Hfatal].
    unfold try_except, call, raise. cbn [env events]. rewrite Hsearch.
    now rewrite <- app_assoc. }
  now rewrite H2.
Qed.

End EngineFacts.

Section PromptFacts.
Import Py Sys RagEngine Observe.

Lemma append_cons a s t : (String a s ++ t)%string = String a (s ++ t).
Proof. reflexivity. Qed.

Lemma append_empty_r s : (s ++ "")%string = s.
Proof.
  induction s as [|c s IH]; [reflexivity|]. now rewrite append_cons, IH.
Qed.

Lemma prefix_app_l sub : forall s t,
  String.prefix sub s = true -> String.prefix sub (s ++ t) = true.
Proof.
  induction sub as [|c sub IH]; intros s t.
  - intros _. now destruct (s ++ t)%string.
  - destruct s as [|a s]; [discriminate|]. rewrite append_cons. simpl.
    destruct (ascii_dec c a); [apply IH | discriminate].
Qed.

Lemma prefix_refl sub : String.prefix sub sub = true.
Proof.
  induction sub as [|c sub IH]; simpl; [reflexivity|].
  destruct (ascii_dec c c) as [_|Hc]; [exact IH | now destruct Hc].
Qed.

Lemma contains_prefix sub s : String.prefix sub s = true -> contains sub s = true.
Proof.
  intros H. destruct s as [|a s].
  - destruct sub; [reflexivity | discriminate].
  - change (contains sub (String a s))
      with (String.prefix sub (String a s) || contains sub s).
    now rewrite H.
Qed.

Lemma contains_here sub t : contains sub (sub ++ t) = true.
Proof. apply contains_prefix, prefix_app_l, prefix_refl. Qed.

Lemma contains_app_r sub s t :
  contains sub t = true -> contains sub (s ++ t) = true.
Proof.
  intros Ht. induction s as [|a s IH]; [exact Ht|].
  rewrite append_cons. simpl. rewrite IH. apply orb_true_r.
Qed.

Lemma contains_app_l sub s t :
  contains sub s = true -> contains sub (s ++ t) = true.
Proof.
  induction s as [|a s IH].
  - simpl. rewrite orb_false_r. intros H.
    apply contains_prefix. apply (prefix_app_l sub "" t H).
  - intros H. simpl in H. apply orb_true_iff in H as [H|H].
    + apply contains_prefix. apply (prefix_app_l sub (String a s) t H).
    + rewrite append_cons. simpl. rewrite (IH H). apply orb_true_r.
Qed.

Lemma join_cons sep p q rest :
  join sep (p :: q :: rest) = (p ++ sep ++ join sep (q :: rest))%string.
Proof. reflexivity. Qed.

(** Each chunk's text is part of the context block, whatever the index the
    numbering starts from. *)
Lemma context_contains_chunk sep documents : forall i doc,
  In doc documents ->
  contains (page_content doc) (join sep (source_blocks i documents)) = true.
Proof.
  induction documents as [|d rest IH]; intros i doc Hin; [destruct Hin|].
  assert (Hblock :
            contains (page_content d)
              ("[Source " ++ str_of_nat (i + 1) ++ "]:
" ++ page_content d) = true).
  { apply contains_app_r, contains_app_r, contains_app_r.
    apply contains_prefix, prefix_refl. }
  cbn [source_blocks].
  destruct (source_blocks (S i) rest) as [|b bs] eqn:E.
  - destruct Hin as [->|Hin]; [exact Hblock|].
    destruct rest; [destruct Hin | discriminate].
  - rewrite join_cons. destruct Hin as [->|Hin].
    + apply contains_app_l, Hblock.
    + apply contains_app_r, contains_app_r.
      rewrite <- E. apply IH, Hin.
Qed.

(** X10.  Grounding: the prompt sent to the model carries the question and the
    text of every retrieved chunk, verbatim. *)
Theorem answer_prompt_is_grounded question retrieved_docs :
  contains question (answer_prompt question retrieved_docs) = true /\
  forall doc, In doc (map fst retrieved_docs) ->
    contains (page_content doc) (answer_prompt question retrieved_docs) = true.
Proof.
  unfold answer_prompt, _create_prompt. split.
  - do 7 apply contains_app_r. apply contains_here.
  - intros doc Hin. do 5 apply contains_app_r. apply contains_app_l.
    now apply context_contains_chunk.
Qed.

End PromptFacts.

Section EngineExamples.
Import Py Sys Config RagEngine Observe Fixtures.
Local Open Scope list_scope.

Lemma generate_answer_empty_retrieval_witness :
  generate_answer settings sum_left_to_right (llm_says "It is 1200 USD.") still
    "What is the rate?" [] start
  = (Raise (Exc ZeroDivisionError "division by zero" None),
     MkWorld tt [LlmInvoke (answer_prompt "What is the rate?" [])]).
Proof.
  apply (generate_answer_empty_retrieval settings sum_left_to_right
           (llm_says "It is 1200 USD.") still "What is the rate?" start
           "It is 1200 USD." tt).
  reflexivity.
Defined.

Lemma generate_answer_reports_witness :
  match generate_answer settings sum_left_to_right
          (llm_says "It is 1200 USD.") still "What is the rate?" two_chunks
          start with
  | (Ok r, _) =>
      sources r = reported_sources two_chunks /\
      length (sources r) = 2%nat /\
      exists generated confidence category,
        calculate_confidence_score settings sum_left_to_right
          (map snd two_chunks) generated (map fst two_chunks)
        = Ok (confidence, category) /\
        confidence_score r = round confidence 3
  | (Raise _, _) => False
  end.
Proof.
  destruct (generate_answer settings sum_left_to_right
              (llm_says "It is 1200 USD.") still "What is the rate?"
              two_chunks start) as [[r|e] w'] eqn:H.
  - exact (generate_answer_reports settings sum_left_to_right
             (llm_says "It is 1200 USD.") still "What is the rate?"
             two_chunks start r w' H).
  - vm_compute in H. discriminate.
Defined.

Lemma ask_question_search_failure_witness :
  ask_question settings sum_left_to_right (llm_says "It is 1200 USD.")
    (index_fails Samples.value_error) embeddings_ok still tt
    "What is the rate?" start
  = (Raise Samples.value_error,
     MkWorld tt [InitEmbeddings; Search "What is the rate?" 3]).
Proof.
  apply (ask_question_search_failure settings sum_left_to_right
           (llm_says "It is 1200 USD.") (index_fails Samples.value_error)
           embeddings_ok still tt "What is the rate?" start
           tt Samples.value_error tt); reflexivity.
Defined.

Lemma answer_prompt_is_grounded_witness :
  contains "What is the rate?" (answer_prompt "What is the rate?" two_chunks)
  = true /\
  contains "Carrier: ACME Freight"
    (answer_prompt "What is the rate?" two_chunks) = true.
Proof.
  split.
  - apply (proj1 (answer_prompt_is_grounded "What is the rate?" two_chunks)).
  - apply (proj2 (answer_prompt_is_grounded "What is the rate?" two_chunks)
             carrier_chunk).
    right. left. reflexivity.
Defined.

End EngineExamples.

(** ** Confidence, categories and the guardrail *)

Section FloatOrder.
Local Open Scope float_scope.

Lemma SFcompare_antisym x y :
  SFcompare y x = option_map CompOpp (SFcompare x y).
Proof.
  destruct x as [sx|sx| |sx mx ex], y as [sy|sy| |sy my ey]; simpl;
    try reflexivity; try (now destruct sx); try (now destruct sy);
    try (now destruct sx, sy).
  destruct sx, sy; simpl; try reflexivity;
    rewrite (Z.compare_antisym ex ey); destruct (ex ?= ey)%Z; simpl;
    try reflexivity;
    rewrite (Pos.compare_cont_antisym mx my Eq); simpl;
    now rewrite ?CompOpp_involutive.
Qed.

(** [x < y] excludes [y <= x], also for infinities and NaN. *)
Lemma ltb_leb_false x y : (x <? y) = true -> (y <=? x) = false.
Proof.
  rewrite ltb_spec, leb_spec. unfold SFltb, SFleb.
  rewrite (SFcompare_antisym (Prim2SF x) (Prim2SF y)).
  now destruct (SFcompare (Prim2SF x) (Prim2SF y)) as [[]|].
Qed.

Lemma pos_cmp_mono (a b m : positive) :
  (a <= b)%positive ->
  match Pos.compare_cont Eq b m with Gt => false | _ => true end = true ->
  match Pos.compare_cont Eq a m with Gt => false | _ => true end = true.
Proof.
  intros Hab.
  change (Pos.compare_cont Eq b m) with (Pos.compare b m).
  change (Pos.compare_cont Eq a m) with (Pos.compare a m).
  destruct (Pos.compare_spec b m) as [H|H|H];
    destruct (Pos.compare_spec a m) as [H'|H'|H'];
    try reflexivity; try discriminate; intros _; lia.
Qed.

(** [0.7 <= c] entails [0.5 <= c]. *)
Lemma leb_high_medium c : (0.7 <=? c) = true -> (0.5 <=? c) = true.
Proof.
  rewrite !leb_spec. unfold SFleb.
  change (Prim2SF 0.7) with (S754_finite false 6305039478318694 (-53)).
  change (Prim2SF 0.5) with (S754_finite false 4503599627370496 (-53)).
  destruct (Prim2SF c) as [s|s| |s m e]; cbn [SFcompare].
  - discriminate.
  - now destruct s.
  - discriminate.
  - destruct s; [discriminate|].
    destruct (-53 ?= e)%Z; try reflexivity; try discriminate.
    apply pos_cmp_mono. unfold Pos.le; vm_compute; discriminate.
Qed.

End FloatOrder.

Section AnswerFacts.
Import Py Sys Config RagEngine Observe.
Local Open Scope list_scope.
Local Open Scope float_scope.
Variable cfg : Settings.
Variable sum : list float -> float.
Context {Env Chroma : Type}.
Variable llm_invoke : string -> Env -> result string * Env.
Variable similarity_search_with_score :
  Chroma -> string -> nat -> Env -> result (list (Document * float)) * Env.
Variable MistralAIEmbeddings : Env -> result unit * Env.
Variable elapse : Z -> Env -> Env.

Abbreviation body := (generate_answer_body cfg sum llm_invoke).
Abbreviation generate := (generate_answer cfg sum llm_invoke elapse).
Abbreviation ask :=
  (ask_question cfg sum llm_invoke similarity_search_with_score
                MistralAIEmbeddings elapse).
Abbreviation search :=
  (similarity_search cfg similarity_search_with_score elapse).

(** With at least one score, the mean is taken and nothing raises. *)
Lemma calculate_confidence_score_nonempty retrieval_scores answer sources :
  retrieval_scores <> [] ->
  calculate_confidence_score cfg sum retrieval_scores answer sources
  = Ok (let confidence :=
          SIMILARITY_WEIGHT cfg
          * (1 - sum retrieval_scores / float_of_len (length retrieval_scores))
          + AGREEMENT_WEIGHT cfg
            * (if (2 <=? length sources)%nat then 1.0 else 0.7) in
        (confidence,
         if 0.7 <=? confidence then "high"%string
         else if 0.5 <=? confidence then "medium"%string
         else "low"%string)).
Proof.
  intros Hne. unfold calculate_confidence_score.
  destruct retrieval_scores as [|x rest]; [contradiction|reflexivity].
Qed.

Lemma apply_guardrails_nonempty confidence retrieval_scores :
  retrieval_scores <> [] ->
  apply_guardrails cfg sum confidence retrieval_scores
  = Ok (negb ((1 - sum retrieval_scores / float_of_len (length retrieval_scores)
               <? SIMILARITY_THRESHOLD cfg)
              || (confidence <? SIMILARITY_THRESHOLD cfg))).
Proof.
  intros Hne. unfold apply_guardrails.
  destruct retrieval_scores as [|x rest]; [contradiction|].
  cbn [div_len length]. cbv zeta.
  destruct (_ <? SIMILARITY_THRESHOLD cfg); [reflexivity|].
  now destruct (confidence <? SIMILARITY_THRESHOLD cfg).
Qed.

Lemma map_snd_nonempty {A B} (l : list (A * B)) : l <> [] -> map snd l <> [].
Proof. now destruct l. Qed.

(** One attempt of [generate_answer] on at least one chunk: it fails only
    when the model does. *)
Lemma generate_answer_body_chunks question retrieved_docs (w : World Env) :
  retrieved_docs <> [] ->
  let distances := map snd retrieved_docs in
  let prompt := answer_prompt question retrieved_docs in
  let confidence :=
    SIMILARITY_WEIGHT cfg
    * (1 - sum distances / float_of_len (length distances))
    + AGREEMENT_WEIGHT cfg
      * (if (2 <=? length retrieved_docs)%nat then 1.0 else 0.7) in
  let category :=
    if 0.7 <=? confidence then "high"%string
    else if 0.5 <=? confidence then "medium"%string else "low"%string in
  let abstains :=
    (1 - sum distances / float_of_len (length distances)
     <? SIMILARITY_THRESHOLD cfg)
    || (confidence <? SIMILARITY_THRESHOLD cfg) in
  body question retrieved_docs w =
  match llm_invoke prompt (env w) with
  | (Raise e, e') => (Raise e, MkWorld e' (events w ++ [LlmInvoke prompt]))
  | (Ok generated, e') =>
      (Ok (MkAnswer (if abstains then abstention_text else generated)
                    (round confidence 3)
                    (if abstains then "low"%string else category)
                    (reported_sources retrieved_docs) (negb abstains)),
       MkWorld e' (events w ++ [LlmInvoke prompt]))
  end.
Proof.
  intros Hne. cbv zeta.
  unfold generate_answer_body, try_except, bind, call, lift, ret, raise,
    answer_prompt, reported_sources.
  cbv zeta.
  destruct (llm_invoke _ (env w)) as [[generated|e] e']; [|reflexivity].
  rewrite (calculate_confidence_score_nonempty _ _ _ (map_snd_nonempty _ Hne)).
  cbv zeta. cbn [fst snd].
  rewrite (apply_guardrails_nonempty _ _ (map_snd_nonempty _ Hne)).
  rewrite !length_map, negb_involutive. reflexivity.
Qed.

Lemma ask_question_with_chunks vector_store question (w w0 w1 : World Env)
    retrieved_docs :
  VectorStoreManager MistralAIEmbeddings elapse w = (Ok tt, w0) ->
  search vector_store question (Some (TOP_K_RETRIEVAL cfg)) w0
  = (Ok retrieved_docs, w1) ->
  retrieved_docs <> [] ->
  ask vector_store question w = generate question retrieved_docs w1.
Proof.
  intros Hinit Hsearch Hne. unfold ask_question, bind.
  rewrite Hinit, Hsearch. now destruct retrieved_docs.
Qed.

(** C3.  The category that [calculate_confidence_score] returns with a
    confidence [c]: "high" when [0.7 <= c], "medium" when [0.5 <= c] and
    [c < 0.7], "low" when [c < 0.5].  The lower bounds are inclusive: a
    confidence of exactly 0.7 is "high" and one of exactly 0.5 is
    "medium". *)
Theorem category_thresholds retrieval_scores answer sources c category :
  calculate_confidence_score cfg sum retrieval_scores answer sources
  = Ok (c, category) ->
  ((0.7 <=? c) = true -> category = "high"%string) /\
  ((0.5 <=? c) = true -> (c <? 0.7) = true -> category = "medium"%string) /\
  ((c <? 0.5) = true -> category = "low"%string) /\
  (c = 0.7 -> category = "high"%string) /\
  (c = 0.5 -> category = "medium"%string).
Proof.
  unfold calculate_confidence_score.
  destruct (div_len _ _) as [mean|e]; [|discriminate].
  cbv zeta. intros H. inversion H as [[Hc Hcat]]. clear H.
  rewrite Hc in *. clear Hc.
  assert (Hhigh : (0.7 <=? c) = true ->
                  (if 0.7 <=? c then "high"%string
                   else if 0.5 <=? c then "medium"%string else "low"%string)
                  = "high"%string) by now intros ->.
  assert (Hmed : (0.5 <=? c) = true -> (c <? 0.7) = true ->
                 (if 0.7 <=? c then "high"%string
                  else if 0.5 <=? c then "medium"%string else "low"%string)
                 = "medium"%string).
  { intros H5 H7. now rewrite (ltb_leb_false _ _ H7), H5. }
  repeat split.
  - exact Hhigh.
  - exact Hmed.
  - intros H5. pose proof (ltb_leb_false _ _ H5) as Hn.
    destruct (0.7 <=? c) eqn:H7.
    + rewrite (leb_high_medium _ H7) in Hn. discriminate.
    + now rewrite Hn.
  - intros ->. reflexivity.
  - intros ->. reflexivity.
Qed.

(** C1.  A call of [ask_question] whose retrieval returned at least one
    chunk.  The confidence and the category computed do not depend on what
    the model generated.  Take the average retrieval similarity to be 1
    minus the mean of the distances.  In every answer the call returns: if
    that average is below the similarity threshold, or the computed
    confidence is below that same threshold, the answer is the fixed
    abstention text, whatever the model generated, the category is "low"
    and [passes_guardrails] is false; otherwise the answer is the text the
    model generated, the category is the computed one and
    [passes_guardrails] is true.  And the call does return such an answer
    as soon as the model answers. *)
Theorem guardrail_decides_answer vector_store question (w w0 w1 : World Env)
    retrieved_docs :
  VectorStoreManager MistralAIEmbeddings elapse w = (Ok tt, w0) ->
  search vector_store question (Some (TOP_K_RETRIEVAL cfg)) w0
  = (Ok retrieved_docs, w1) ->
  retrieved_docs <> [] ->
  let distances := map snd retrieved_docs in
  let avg_retrieval := 1 - sum distances / float_of_len (length distances) in
  let prompt := answer_prompt question retrieved_docs in
  exists confidence category,
    (forall generated,
       calculate_confidence_score cfg sum distances generated
         (map fst retrieved_docs) = Ok (confidence, category)) /\
    (forall r w',
       ask vector_store question w = (Ok r, w') ->
       exists generated w2 e',
         llm_invoke prompt (env w2) = (Ok generated, e') /\
         if (avg_retrieval <? SIMILARITY_THRESHOLD cfg)
            || (confidence <? SIMILARITY_THRESHOLD cfg)
         then answer r = abstention_text /\
              confidence_category r = "low"%string /\
              passes_guardrails r = false
         else answer r = generated /\
              confidence_category r = category /\
              passes_guardrails r = true) /\
    (forall generated e',
       llm_invoke prompt (env w1) = (Ok generated, e') ->
       let abstains :=
         (avg_retrieval <? SIMILARITY_THRESHOLD cfg)
         || (confidence <? SIMILARITY_THRESHOLD cfg) in
       ask vector_store question w
       = (Ok (MkAnswer (if abstains then abstention_text else generated)
                       (round confidence 3)
                       (if abstains then "low"%string else category)
                       (reported_sources retrieved_docs) (negb abstains)),
          MkWorld e' (events w1 ++ [LlmInvoke prompt]))).
Proof.
  intros Hinit Hsearch Hne. cbv zeta.
  rewrite (ask_question_with_chunks _ _ _ _ _ _ Hinit Hsearch Hne).
  pose proof (calculate_confidence_score_nonempty (map snd retrieved_docs))
    as Hc.
  cbv zeta in Hc.
  eexists _, _. split; [|split].
  - intros generated.
    apply (Hc generated (map fst retrieved_docs) (map_snd_nonempty _ Hne)).
  - intros r w' H. rewrite !length_map.
    destruct (retry_on_api_error_ok_inv _ _ _ _ _ H) as [w2 Hw2].
    rewrite (generate_answer_body_chunks _ _ _ Hne) in Hw2. cbv zeta in Hw2.
    destruct (llm_invoke _ (env w2)) as [[generated|e] e'] eqn:Hllm;
      [|discriminate].
    exists generated, w2, e'. split; [exact Hllm|].
    rewrite !length_map in Hw2.
    inversion Hw2; subst r w'. cbn [answer confidence_category passes_guardrails].
    now destruct (_ || _).
  - intros generated e' Hllm. rewrite !length_map.
    unfold generate_answer. apply retry_on_api_error_ok.
    rewrite (generate_answer_body_chunks _ _ _ Hne). cbv zeta.
    rewrite Hllm, !length_map. reflexivity.
Qed.

(** C6.  When the retrieval returns no chunk, [ask_question] returns the
    fixed no-information answer, with the confidence 0.0, the category
    "low", no sources and [passes_guardrails] false, whatever the question;
    and no call to the model is added to the log. *)
Theorem zero_chunks_short_circuit vector_store question (w w0 w1 : World Env) :
  VectorStoreManager MistralAIEmbeddings elapse w = (Ok tt, w0) ->
  search vector_store question (Some (TOP_K_RETRIEVAL cfg)) w0 = (Ok [], w1) ->
  ask vector_store question w
  = (Ok (MkAnswer "No relevant information found in the document." 0.0
                  "low" [] false), w1)
  /\ llm_events w1 = llm_events w.
Proof.
  intros Hinit Hsearch. split.
  - unfold ask_question, bind. now rewrite Hinit, Hsearch.
  - pose proof (VectorStoreManager_llm_events MistralAIEmbeddings elapse w)
      as H0.
    pose proof (similarity_search_llm_events cfg similarity_search_with_score
                  elapse vector_store question (Some (TOP_K_RETRIEVAL cfg)) w0)
      as H1.
    rewrite Hinit in H0. rewrite Hsearch in H1. cbn [snd] in H0, H1.
    congruence.
Qed.

Lemma reclassify_class cause c :
  exc_cls (RetryUtils.reclassify cause) = c ->
  exc_cls cause = c \/
  In c [RateLimitError; TokenLimitError; ServiceUnavailableError].
Proof.
  destruct (reclassify_cases cause) as [_ [-> | [_ Hin]]]; [now left|].
  intros <-. now right.
Qed.

(** C10.  The divisions by the number of chunks cannot fail in
    [ask_question].  With at least one chunk, neither
    [calculate_confidence_score] nor [apply_guardrails] raises; with no
    chunk, [ask_question] returns the no-information answer at once; so
    every exception that leaves [ask_question] is one that the embeddings
    client, the index or the model raised, as the wrapper passes it on, and
    as long as none of these three raises a [ZeroDivisionError],
    [ask_question] raises none. *)
Theorem division_by_zero_unreachable vector_store question (w : World Env) :
  (forall retrieved_docs generated confidence,
     retrieved_docs <> [] ->
     is_ok (calculate_confidence_score cfg sum (map snd retrieved_docs)
              generated (map fst retrieved_docs)) = true /\
     is_ok (apply_guardrails cfg sum confidence (map snd retrieved_docs))
     = true) /\
  (forall w0 w1,
     VectorStoreManager MistralAIEmbeddings elapse w = (Ok tt, w0) ->
     search vector_store question (Some (TOP_K_RETRIEVAL cfg)) w0
     = (Ok [], w1) ->
     ask vector_store question w = (Ok no_information, w1)) /\
  (forall e w',
     ask vector_store question w = (Raise e, w') ->
     exists cause,
       e = RetryUtils.reclassify cause /\
       ((exists e0 e1, MistralAIEmbeddings e0 = (Raise cause, e1)) \/
        (exists k e0 e1,
           similarity_search_with_score vector_store question k e0
           = (Raise cause, e1)) \/
        (exists prompt e0 e1, llm_invoke prompt e0 = (Raise cause, e1)))) /\
  ((forall e0 cause e1, MistralAIEmbeddings e0 = (Raise cause, e1) ->
      isinstance cause ZeroDivisionError = false) ->
   (forall k e0 cause e1,
      similarity_search_with_score vector_store question k e0
      = (Raise cause, e1) -> isinstance cause ZeroDivisionError = false) ->
   (forall prompt e0 cause e1, llm_invoke prompt e0 = (Raise cause, e1) ->
      isinstance cause ZeroDivisionError = false) ->
   forall e w',
     ask vector_store question w = (Raise e, w') ->
     isinstance e ZeroDivisionError = false).
Proof.
  assert (Hraise : forall e w',
     ask vector_store question w = (Raise e, w') ->
     exists cause,
       e = RetryUtils.reclassify cause /\
       ((exists e0 e1, MistralAIEmbeddings e0 = (Raise cause, e1)) \/
        (exists k e0 e1,
           similarity_search_with_score vector_store question k e0
           = (Raise cause, e1)) \/
        (exists prompt e0 e1, llm_invoke prompt e0 = (Raise cause, e1)))).
  { intros e w'. unfold ask_question, bind.
    destruct (VectorStoreManager MistralAIEmbeddings elapse w)
      as [[[]|x] w0] eqn:Hinit.
    - destruct (search vector_store question (Some (TOP_K_RETRIEVAL cfg)) w0)
        as [[[|first rest]|x] w1] eqn:Hsearch.
      + discriminate.
      + intros H.
        destruct (retry_on_api_error_raise_inv _ _ _ _ _ H)
          as [s0 [cause [Hbody ->]]].
        exists cause. split; [reflexivity|]. right. right.
        rewrite generate_answer_body_chunks in Hbody by discriminate.
        cbv zeta in Hbody.
        destruct (llm_invoke _ (env s0)) as [[generated|x] e'] eqn:Hllm;
          [discriminate|].
        inversion Hbody; subst. eauto.
      + intros H. inversion H; subst x w1. clear H.
        destruct (retry_on_api_error_raise_inv _ _ _ _ _ Hsearch)
          as [s0 [cause [Hbody ->]]].
        exists cause. split; [reflexivity|]. right. left.
        unfold try_except, call, raise in Hbody.
        destruct (similarity_search_with_score _ _ _ (env s0))
          as [[found|x] e'] eqn:Hs; [discriminate|].
        inversion Hbody; subst. eauto.
    - intros H. inversion H; subst x w0. clear H.
      destruct (retry_on_api_error_raise_inv _ _ _ _ _ Hinit)
        as [s0 [cause [Hbody ->]]].
      exists cause. split; [reflexivity|]. left.
      unfold try_except, call, raise in Hbody.
      destruct (MistralAIEmbeddings (env s0)) as [[[]|x] e'] eqn:Hs;
        [discriminate|].
      inversion Hbody; subst. eauto. }
  split; [|split; [|split]].
  - intros retrieved_docs generated confidence Hne.
    rewrite (calculate_confidence_score_nonempty _ _ _ (map_snd_nonempty _ Hne)).
    rewrite (apply_guardrails_nonempty _ _ (map_snd_nonempty _ Hne)).
    now split.
  - intros w0 w1 Hinit Hsearch. unfold ask_question, bind.
    now rewrite Hinit, Hsearch.
  - exact Hraise.
  - intros Hemb Hidx Hllm e w' H.
    destruct (Hraise e w' H) as [cause [-> Hfrom]].
    assert (Hcause : isinstance cause ZeroDivisionError = false).
    { destruct Hfrom as [[e0 [e1 H0]] | [[k [e0 [e1 H0]]] | [p [e0 [e1 H0]]]]];
        eauto. }
    unfold isinstance in *.
    apply bool_decide_eq_false. intros Hcls.
    apply bool_decide_eq_false in Hcause.
    destruct (reclassify_class _ _ Hcls) as [Hc | Hin]; [contradiction|].
    cbn in Hin. intuition discriminate.
Qed.


(** C2, as amended.  For every non-empty list of retrieved chunks with
    their distances, the confidence computed is
    [SIMILARITY_WEIGHT * (1 - sum(distances) / len(distances))
     + AGREEMENT_WEIGHT * source_agreement], in binary floating point, where
    [source_agreement] is 1.0 for at least two chunks and 0.7 otherwise.
    With the default settings and the distances 0.1, 0.3 and 0.2 the
    confidence computed is 0.9 where [sum] compensates its rounding errors
    and 0.8999999999999999 where it adds from left to right; either way the
    category is "high", the guardrail passes, and the answer carries the
    generated text and reports the confidence 0.9, rounded to three
    decimals.  With the single distance 0.95 the confidence is 0.375, the
    category "low", and the guardrail puts the abstention text in place of
    the generated one. *)
Theorem confidence_formula :
  (forall (retrieved_docs : list (Document * float)) answer,
     retrieved_docs <> [] ->
     let distances := map snd retrieved_docs in
     let source_agreement :=
       if (2 <=? length retrieved_docs)%nat then 1.0 else 0.7 in
     exists category,
       calculate_confidence_score cfg sum distances answer
         (map fst retrieved_docs)
       = Ok (SIMILARITY_WEIGHT cfg
             * (1 - sum distances / float_of_len (length distances))
             + AGREEMENT_WEIGHT cfg * source_agreement, category)) /\
  (forall d1 d2 d3 question (w : World Env) generated e',
     let retrieved_docs := [(d1, 0.1); (d2, 0.3); (d3, 0.2)] in
     let prompt := answer_prompt question retrieved_docs in
     llm_invoke prompt (env w) = (Ok generated, e') ->
     calculate_confidence_score settings sum_compensated [0.1; 0.3; 0.2]
       generated [d1; d2; d3] = Ok (0.9, "high"%string) /\
     calculate_confidence_score settings sum_left_to_right [0.1; 0.3; 0.2]
       generated [d1; d2; d3] = Ok (0.8999999999999999, "high"%string) /\
     forall sum', sum' = sum_compensated \/ sum' = sum_left_to_right ->
       generate_answer settings sum' llm_invoke elapse question
         retrieved_docs w
       = (Ok (MkAnswer generated 0.9 "high"
                       (reported_sources retrieved_docs) true),
          MkWorld e' (events w ++ [LlmInvoke prompt]))) /\
  (forall d question (w : World Env) generated e',
     let retrieved_docs := [(d, 0.95)] in
     let prompt := answer_prompt question retrieved_docs in
     llm_invoke prompt (env w) = (Ok generated, e') ->
     forall sum', sum' = sum_compensated \/ sum' = sum_left_to_right ->
       calculate_confidence_score settings sum' [0.95] generated [d]
       = Ok (0.375, "low"%string) /\
       generate_answer settings sum' llm_invoke elapse question
         retrieved_docs w
       = (Ok (MkAnswer abstention_text 0.375 "low"
                       (reported_sources retrieved_docs) false),
          MkWorld e' (events w ++ [LlmInvoke prompt]))).
Proof.
  split; [|split].
  - intros retrieved_docs answer Hne. cbv zeta.
    rewrite (calculate_confidence_score_nonempty _ _ _ (map_snd_nonempty _ Hne)).
    cbv zeta. rewrite !length_map. eauto.
  - intros d1 d2 d3 question w generated e'. cbv zeta. intros Hllm.
    split; [reflexivity|]. split; [reflexivity|].
    intros sum' Hsum. unfold generate_answer.
    apply retry_on_api_error_ok.
    rewrite generate_answer_body_run. cbv zeta. rewrite Hllm.
    destruct Hsum as [-> | ->]; reflexivity.
  - intros d question w generated e'. cbv zeta. intros Hllm sum' Hsum.
    split; [destruct Hsum as [-> | ->]; reflexivity|].
    unfold generate_answer. apply retry_on_api_error_ok.
    rewrite generate_answer_body_run. cbv zeta. rewrite Hllm.
    destruct Hsum as [-> | ->]; reflexivity.
Qed.

End AnswerFacts.

Section AnswerExamples.
Import Py Sys Config RagEngine Observe Fixtures.
Local Open Scope list_scope.
Local Open Scope float_scope.

(** The pipeline on sample services: the embeddings client starts, the
    index returns [found] and the model answers. *)
Abbreviation ask_sample found :=
  (ask_question settings sum_left_to_right (llm_says "It is 1200 USD.")
     (index_scores found) embeddings_ok still tt "What is the rate?" start).

Abbreviation asked found :=
  (MkWorld tt [InitEmbeddings; Search "What is the rate?" 3;
               LlmInvoke (answer_prompt "What is the rate?" found)]).

(** C1 on the sample services: two chunks near the question pass the
    guardrail, one chunk far from it does not. *)
Lemma guardrail_decides_answer_witness :
  ask_sample two_chunks
  = (Ok (MkAnswer "It is 1200 USD." 0.812 "high"
                  (reported_sources two_chunks) true), asked two_chunks)
  /\
  ask_sample far_chunk
  = (Ok (MkAnswer abstention_text 0.375 "low"
                  (reported_sources far_chunk) false), asked far_chunk).
Proof.
  split.
  - destruct (guardrail_decides_answer settings sum_left_to_right
                (llm_says "It is 1200 USD.") (index_scores two_chunks)
                embeddings_ok still tt "What is the rate?" start
                (MkWorld tt [InitEmbeddings])
                (MkWorld tt [InitEmbeddings; Search "What is the rate?" 3])
                two_chunks eq_refl eq_refl ltac:(discriminate))
      as [confidence [category [Hc [_ Hfirst]]]].
    specialize (Hc ""%string). vm_compute in Hc.
    inversion Hc; subst confidence category.
    rewrite (Hfirst "It is 1200 USD."%string tt eq_refl). reflexivity.
  - destruct (guardrail_decides_answer settings sum_left_to_right
                (llm_says "It is 1200 USD.") (index_scores far_chunk)
                embeddings_ok still tt "What is the rate?" start
                (MkWorld tt [InitEmbeddings])
                (MkWorld tt [InitEmbeddings; Search "What is the rate?" 3])
                far_chunk eq_refl eq_refl ltac:(discriminate))
      as [confidence [category [Hc [_ Hfirst]]]].
    specialize (Hc ""%string). vm_compute in Hc.
    inversion Hc; subst confidence category.
    rewrite (Hfirst "It is 1200 USD."%string tt eq_refl). reflexivity.
Defined.

Lemma confidence_formula_witness :
  (exists category,
     calculate_confidence_score settings sum_left_to_right [0.25; 0.5] ""
       [rate_chunk; carrier_chunk]
     = Ok (0.5 * (1 - sum_left_to_right [0.25; 0.5] / float_of_len 2)
           + 0.5 * 1.0, category))
  /\
  generate_answer settings sum_left_to_right (llm_says "It is 1200 USD.")
    still "What is the rate?" three_chunks start
  = (Ok (MkAnswer "It is 1200 USD." 0.9 "high"
                  (reported_sources three_chunks) true),
     MkWorld tt [LlmInvoke (answer_prompt "What is the rate?" three_chunks)])
  /\
  generate_answer settings sum_compensated (llm_says "It is 1200 USD.")
    still "What is the rate?" far_chunk start
  = (Ok (MkAnswer abstention_text 0.375 "low"
                  (reported_sources far_chunk) false),
     MkWorld tt [LlmInvoke (answer_prompt "What is the rate?" far_chunk)]).
Proof.
  split; [|split].
  - apply (proj1 (confidence_formula settings sum_left_to_right
                    (llm_says "It is 1200 USD.") still)
             two_chunks ""%string).
    discriminate.
  - apply (proj2 (proj2 (proj1 (proj2
             (confidence_formula settings sum_left_to_right
                (llm_says "It is 1200 USD.") still))
             rate_chunk carrier_chunk rate_chunk "What is the rate?"%string
             start "It is 1200 USD."%string tt eq_refl))
             sum_left_to_right).
    right. reflexivity.
  - apply (proj2 (proj2 (proj2
             (confidence_formula settings sum_left_to_right
                (llm_says "It is 1200 USD.") still))
             carrier_chunk "What is the rate?"%string
             start "It is 1200 USD."%string tt eq_refl
             sum_compensated (or_introl eq_refl))).
Defined.

(** C2 as stated fails where [sum] adds from left to right: for the
    distances 0.1, 0.3 and 0.2 the sum is 0.6000000000000001 and the
    confidence computed is 0.8999999999999999, which is below 0.9. *)
Lemma confidence_is_not_exactly_0_9 :
  sum_left_to_right [0.1; 0.3; 0.2] = 0.6000000000000001 /\
  calculate_confidence_score settings sum_left_to_right [0.1; 0.3; 0.2]
    "It is 1200 USD." [rate_chunk; carrier_chunk; rate_chunk]
  = Ok (0.8999999999999999, "high"%string) /\
  (0.8999999999999999 <? 0.9) = true /\
  0.8999999999999999 <> 0.9.
Proof.
  repeat split.
  intros H.
  assert (E : (0.8999999999999999 <? 0.9) = true) by reflexivity.
  rewrite H in E. discriminate E.
Qed.

Lemma category_thresholds_witness :
  calculate_confidence_score settings sum_left_to_right [0.6; 0.6] ""
    [rate_chunk; carrier_chunk] = Ok (0.7, "high"%string) /\
  (0.7 = 0.7 -> "high"%string = "high"%string).
Proof.
  split; [reflexivity|].
  apply (proj1 (proj2 (proj2 (proj2
           (category_thresholds settings sum_left_to_right [0.6; 0.6] ""
              [rate_chunk; carrier_chunk] 0.7 "high" eq_refl))))).
Defined.

(** The other boundary: a confidence of exactly 0.5 is "medium". *)
Example exactly_half_is_medium :
  calculate_confidence_score settings sum_left_to_right [1; 1] ""
    [rate_chunk; carrier_chunk] = Ok (0.5, "medium"%string) /\
  calculate_confidence_score settings sum_compensated [1; 1] ""
    [rate_chunk; carrier_chunk] = Ok (0.5, "medium"%string).
Proof. split; reflexivity. Qed.

(** The category is decided on the confidence as computed, the answer
    reports it rounded to three decimals: for two chunks at the distance
    0.6001 the confidence is 0.6999500000000001, the category "medium", and
    the score reported 0.7. *)
Example reported_score_is_rounded :
  calculate_confidence_score settings sum_left_to_right [0.6001; 0.6001] ""
    [rate_chunk; carrier_chunk] = Ok (0.6999500000000001, "medium"%string) /\
  ask_sample [(rate_chunk, 0.6001); (carrier_chunk, 0.6001)]
  = (Ok (MkAnswer "It is 1200 USD." 0.7 "medium"
           (reported_sources [(rate_chunk, 0.6001); (carrier_chunk, 0.6001)])
           true),
     asked [(rate_chunk, 0.6001); (carrier_chunk, 0.6001)]).
Proof. split; reflexivity. Qed.

Lemma zero_chunks_short_circuit_witness :
  ask_sample []
  = (Ok (MkAnswer "No relevant information found in the document." 0.0
                  "low" [] false),
     MkWorld tt [InitEmbeddings; Search "What is the rate?" 3])
  /\ llm_events (MkWorld tt [InitEmbeddings; Search "What is the rate?" 3])
     = llm_events start.
Proof.
  apply (zero_chunks_short_circuit settings sum_left_to_right
           (llm_says "It is 1200 USD.") (index_scores []) embeddings_ok still
           tt "What is the rate?" start (MkWorld tt [InitEmbeddings])
           (MkWorld tt [InitEmbeddings; Search "What is the rate?" 3])
           eq_refl eq_refl).
Defined.

Lemma division_by_zero_unreachable_witness :
  (is_ok (calculate_confidence_score settings sum_left_to_right
            (map snd two_chunks) "It is 1200 USD." (map fst two_chunks))
   = true /\
   is_ok (apply_guardrails settings sum_left_to_right 0.8125
            (map snd two_chunks)) = true)
  /\
  forall e w',
    ask_question settings sum_left_to_right llm_429
      (index_scores two_chunks) embeddings_ok still tt "What is the rate?"
      start = (Raise e, w') ->
    isinstance e ZeroDivisionError = false.
Proof.
  split.
  - apply (proj1 (division_by_zero_unreachable settings sum_left_to_right
                    llm_429 (index_scores two_chunks) embeddings_ok still tt
                    "What is the rate?" start)
             two_chunks "It is 1200 USD."%string 0.8125).
    discriminate.
  - apply (proj2 (proj2 (proj2
             (division_by_zero_unreachable settings sum_left_to_right
                llm_429 (index_scores two_chunks) embeddings_ok still tt
                "What is the rate?" start)))).
    + intros e0 cause e1 H. discriminate H.
    + intros k e0 cause e1 H. discriminate H.
    + intros prompt e0 cause e1 H. inversion H. reflexivity.
Defined.

End AnswerExamples.

(** ** The structured extractor *)

Section CleanResponse.
Import Py Extractor.

Lemma split_aux_not_nil sep s : forall skip cur, split_aux sep skip cur s <> [].
Proof.
  induction s as [|c s IH]; intros [|k] cur; cbn [split_aux];
    try discriminate; [|apply IH].
  destruct (String.prefix sep (String c s)); [discriminate | apply IH].
Qed.

(** A text that starts with a fence splits into an empty first piece and at
    least one more. *)
Lemma split_fenced s :
  startswith s "```" = true ->
  exists piece rest, split s "```" = EmptyString :: piece :: rest.
Proof.
  unfold startswith. intros H.
  destruct s as [|c s]; [discriminate|].
  unfold split. cbn [split_aux]. rewrite H.
  destruct (split_aux "```" (String.length "```" - 1) "" s) as [|piece rest] eqn:E.
  - now apply split_aux_not_nil in E.
  - now exists piece, rest.
Qed.

(** X11.  The index [[1]] of line 147 is always in range: cleaning the response
    never raises, whatever the model wrote. *)
Theorem clean_response_never_raises response_content :
  exists result_text, clean_response response_content = Ok result_text.
Proof.
  unfold clean_response, and_then.
  destruct (startswith (strip response_content) "```") eqn:F.
  - destruct (split_fenced _ F) as [piece [rest ->]]. eauto.
  - eauto.
Qed.

Lemma rstrip_idempotent s : rstrip (rstrip s) = rstrip s.
Proof.
  induction s as [|c s IH]; [reflexivity|].
  cbn [rstrip]. destruct (rstrip s) as [|c' s'] eqn:E.
  - destruct (is_space c) eqn:Hc; [reflexivity|].
    cbn [rstrip]. now rewrite Hc.
  - cbn [rstrip]. cbn [rstrip] in IH. now rewrite IH.
Qed.

Lemma lstrip_head s :
  lstrip s = EmptyString \/
  exists c t, lstrip s = String c t /\ is_space c = false.
Proof.
  induction s as [|c s IH]; [now left|].
  cbn [lstrip]. destruct (is_space c) eqn:Hc; [exact IH|].
  right. now exists c, s.
Qed.

Lemma rstrip_head c t :
  is_space c = false -> exists t', rstrip (String c t) = String c t'.
Proof.
  intros Hc. cbn [rstrip]. destruct (rstrip t); [rewrite Hc|]; eauto.
Qed.

Lemma strip_idempotent s : strip (strip s) = strip s.
Proof.
  unfold strip.
  destruct (lstrip_head s) as [->|[c [t [-> Hc]]]]; [reflexivity|].
  destruct (rstrip_head c t Hc) as [t' Ht']. rewrite Ht'.
  cbn [lstrip]. rewrite Hc, <- Ht'. apply rstrip_idempotent.
Qed.

(** X12.  A response that does not open with a fence is only trimmed, and
    trimming it again changes nothing. *)
Theorem clean_response_unfenced response_content :
  startswith (strip response_content) "```" = false ->
  clean_response response_content = Ok (strip response_content) /\
  clean_response (strip response_content) = Ok (strip response_content).
Proof.
  intros F. unfold clean_response, and_then.
  rewrite !strip_idempotent, F, strip_idempotent. now split.
Qed.

Lemma append_assoc (a b c : string) : ((a ++ b) ++ c = a ++ (b ++ c))%string.
Proof.
  induction a as [|x a IH]; [reflexivity|]. now rewrite !append_cons, IH.
Qed.

Lemma contains_char_cons c x s :
  contains (String c "") (String x s)
  = (if ascii_dec c x then true else contains (String c "") s).
Proof.
  change (contains (String c "") (String x s))
    with (String.prefix (String c "") (String x s) || contains (String c "") s).
  cbn [String.prefix]. destruct (ascii_dec c x); [now destruct s | reflexivity].
Qed.

Lemma contains_char_app c a b :
  contains (String c "") (a ++ b)
  = contains (String c "") a || contains (String c "") b.
Proof.
  induction a as [|x a IH].
  - reflexivity.
  - rewrite append_cons, !contains_char_cons.
    destruct (ascii_dec c x); [reflexivity | exact IH].
Qed.

Lemma rev_app_append s : forall acc t,
  (String.rev_app s acc ++ t)%string = String.rev_app s (acc ++ t).
Proof.
  induction s as [|a s IH]; intros acc t; [reflexivity|].
  cbn [String.rev_app]. now rewrite IH, append_cons.
Qed.

(** Without a backquote in [body], the scan runs through [body] to the
    fence that follows it. *)
Lemma split_aux_until_fence body : forall cur,
  contains "`" body = false ->
  split_aux "```" 0 cur (body ++ "```")
  = [(String.rev cur ++ body)%string; EmptyString].
Proof.
  induction body as [|c body IH]; intros cur Hb.
  - cbn. now rewrite append_empty_r.
  - rewrite contains_char_cons in Hb.
    destruct (ascii_dec "`" c) as [|Hc]; [discriminate|].
    rewrite append_cons. cbn [split_aux String.prefix].
    destruct (ascii_dec "`" c) as [|_]; [contradiction|].
    rewrite (IH (String c cur) Hb). unfold String.rev.
    cbn [String.rev_app]. now rewrite !rev_app_append.
Qed.

Lemma split_aux_match sep c t cur :
  String.prefix sep (String c t) = true ->
  split_aux sep 0 cur (String c t)
  = String.rev cur :: split_aux sep (String.length sep - 1) "" t.
Proof.
  intros H.
  change (split_aux sep 0 cur (String c t))
    with (if String.prefix sep (String c t)
          then String.rev cur :: split_aux sep (String.length sep - 1) "" t
          else split_aux sep 0 (String c cur) t).
  now rewrite H.
Qed.

Lemma split_aux_skip sep k cur c t :
  split_aux sep (S k) cur (String c t) = split_aux sep k cur t.
Proof. reflexivity. Qed.

Lemma split_fenced_block inner :
  contains "`" inner = false ->
  split ("```" ++ inner ++ "```") "```" = [EmptyString; inner; EmptyString].
Proof.
  intros H. unfold split.
  assert (P : String.prefix "```" ("```" ++ inner ++ "```") = true)
    by apply prefix_app_l, prefix_refl.
  change ("```" ++ inner ++ "```")%string
    with (String "`" (String "`" (String "`" (inner ++ "```")))) in *.
  rewrite (split_aux_match _ _ _ _ P).
  change (String.length "```" - 1)%nat with 2%nat.
  rewrite !split_aux_skip.
  now rewrite (split_aux_until_fence inner "" H).
Qed.

Lemma rstrip_app_keep t : rstrip t = t -> t <> EmptyString ->
  forall s, rstrip (s ++ t) = (s ++ t)%string.
Proof.
  intros Ht Hne. induction s as [|c s IH]; [exact Ht|].
  rewrite append_cons. cbn [rstrip]. rewrite IH.
  destruct (s ++ t)%string eqn:E; [|reflexivity].
  destruct s; [now destruct Hne | discriminate].
Qed.

Lemma rstrip_app_space sp x :
  is_space sp = true -> rstrip (x ++ String sp "") = rstrip x.
Proof.
  intros Hsp. induction x as [|c x IH].
  - change (rstrip (String sp "") = rstrip ""). cbn [rstrip]. now rewrite Hsp.
  - rewrite append_cons. cbn [rstrip]. now rewrite IH.
Qed.

Lemma strip_app_space sp b :
  is_space sp = true -> strip (b ++ String sp "") = strip b.
Proof.
  intros Hsp. unfold strip. induction b as [|c b IH].
  - change (rstrip (lstrip (String sp "")) = rstrip (lstrip "")).
    cbn [lstrip]. now rewrite Hsp.
  - rewrite append_cons. cbn [lstrip]. destruct (is_space c); [exact IH|].
    rewrite <- append_cons. now apply rstrip_app_space.
Qed.

(** X13.  The fence round trip: a text without backquotes that the model wrapped
    in a fenced block, with or without the [json] tag, comes out of the
    cleaning as that text, trimmed. *)
Theorem clean_response_fenced body :
  contains "`" body = false ->
  clean_response ("```json
" ++ body ++ "
```") = Ok (strip body) /\
  clean_response ("```
" ++ body ++ "
```") = Ok (strip body).
Proof.
  intros Hb.
  pose (nl := String "010" "").
  assert (Hin : forall tag, contains "`" tag = false ->
            contains "`" (tag ++ nl ++ body ++ nl) = false).
  { intros tag Ht. rewrite !contains_char_app, Ht, Hb. reflexivity. }
  assert (Hstrip : forall tag,
            strip ("```" ++ (tag ++ nl ++ body ++ nl) ++ "```")
            = ("```" ++ (tag ++ nl ++ body ++ nl) ++ "```")%string).
  { intros tag. unfold strip.
    change ("```" ++ (tag ++ nl ++ body ++ nl) ++ "```")%string
      with (String "`" ("``" ++ (tag ++ nl ++ body ++ nl) ++ "```")).
    cbn [lstrip]. change (is_space "`") with false. cbv iota.
    rewrite <- !append_assoc, <- append_cons.
    apply rstrip_app_keep; [reflexivity | discriminate]. }
  assert (Hend : strip (nl ++ body ++ nl) = strip body).
  { unfold nl at 1. rewrite append_cons. unfold strip at 1. cbn [lstrip].
    change (is_space "010") with true. cbv iota.
    change (lstrip ("" ++ body ++ nl)) with (lstrip (body ++ nl)).
    now apply (strip_app_space "010" body). }
  split.
  - assert (E : ("```json
" ++ body ++ "
```")%string = ("```" ++ ("json" ++ nl ++ body ++ nl) ++ "```")%string).
    { unfold nl. now rewrite !append_assoc. }
    rewrite E. unfold clean_response, and_then. rewrite Hstrip.
    change (startswith ("```" ++ ("json" ++ nl ++ body ++ nl) ++ "```") "```")
      with true. cbv iota.
    rewrite (split_fenced_block _ (Hin "json"%string eq_refl)).
    change (startswith ("json" ++ nl ++ body ++ nl) "json") with true.
    cbv iota.
    change (drop_chars 4 ("json" ++ nl ++ body ++ nl)) with (nl ++ body ++ nl)%string.
    now rewrite Hend.
  - assert (E : ("```
" ++ body ++ "
```")%string = ("```" ++ ("" ++ nl ++ body ++ nl) ++ "```")%string).
    { unfold nl. now rewrite !append_assoc. }
    rewrite E. unfold clean_response, and_then. rewrite Hstrip.
    change (startswith ("```" ++ ("" ++ nl ++ body ++ nl) ++ "```") "```")
      with true. cbv iota.
    rewrite (split_fenced_block _ (Hin ""%string eq_refl)).
    change (startswith ("" ++ nl ++ body ++ nl) "json") with false.
    cbv iota.
    change ("" ++ nl ++ body ++ nl)%string with (nl ++ body ++ nl)%string.
    now rewrite Hend.
Qed.

End CleanResponse.

Section ExtractorFacts.
Import Py Sys Extractor Observe.
Local Open Scope list_scope.
Variable json_loads : string -> result json.
Variable str_validator : json -> option string.
Context {Env Chroma : Type}.
Variable llm_invoke : string -> Env -> result string * Env.
Variable chroma_similarity_search :
  Chroma -> string -> nat -> Env -> result (list Document) * Env.
Variable elapse : Z -> Env -> Env.

Abbreviation extract :=
  (extract_shipment_data json_loads str_validator llm_invoke
     chroma_similarity_search elapse).

(** X14.  The decorator of [extract_shipment_data] never gets to retry, because
    the body swallows every failure itself: there is one search, at most
    one call to the model and no wait.  A failing search, and a failing
    model, even when rate limited, end the call at once with the all-absent
    record; an answering model ends it with some record.  The call never
    raises. *)
Theorem extract_shipment_data_single_attempt vector_store document_id
    (w : World Env) :
  match chroma_similarity_search vector_store context_query 5 (env w) with
  | (Raise _, e1) =>
      extract vector_store document_id w
      = (Ok empty_shipment_data,
         MkWorld e1 (events w ++ [Search context_query 5]))
  | (Ok results, e1) =>
      match llm_invoke (extraction_prompt results) e1 with
      | (Raise _, e2) =>
          extract vector_store document_id w
          = (Ok empty_shipment_data,
             MkWorld e2 (events w ++ [Search context_query 5;
                                      LlmInvoke (extraction_prompt results)]))
      | (Ok _, e2) =>
          exists shipment_data,
            extract vector_store document_id w
            = (Ok shipment_data,
               MkWorld e2 (events w ++ [Search context_query 5;
                                        LlmInvoke (extraction_prompt results)]))
      end
  end.
Proof.
  unfold extract_shipment_data.
  assert (Hok : forall r w', 
            extract_shipment_data_body json_loads str_validator llm_invoke
              chroma_similarity_search vector_store document_id w = (Ok r, w') ->
            RetryUtils.retry_on_api_error (sleep elapse)
              (extract_shipment_data_body json_loads str_validator llm_invoke
                 chroma_similarity_search vector_store document_id) w
            = (Ok r, w')).
  { intros r w' H. now apply retry_on_api_error_ok. }
  unfold extract_shipment_data_body, _get_document_context, try_except, bind,
    call, lift, ret, raise, extraction_prompt in *.
  destruct (chroma_similarity_search vector_store context_query 5 (env w))
    as [[results|e] e1]; [|now apply Hok].
  cbn [env events] in *.
  destruct (llm_invoke _ e1) as [[text|e] e2];
    [|apply Hok; now rewrite <- app_assoc].
  destruct (clean_response text) as [result_text|e];
    [|exists empty_shipment_data; apply Hok; now rewrite <- app_assoc].
  destruct (parse_json json_loads result_text) as [extracted_data|e];
    [|exists empty_shipment_data; apply Hok; now rewrite <- app_assoc].
  destruct (ShipmentData_init str_validator extracted_data) as [shipment_data|e];
    [exists shipment_data | exists empty_shipment_data];
    apply Hok; now rewrite <- app_assoc.
Qed.

End ExtractorFacts.

(** ** What the extractor returns *)

Section ExtractionFacts.
Import Py Sys Extractor Observe.
Local Open Scope list_scope.
Variable json_loads : string -> result json.
Variable str_validator : json -> option string.
Context {Env Chroma : Type}.
Variable llm_invoke : string -> Env -> result string * Env.
Variable chroma_similarity_search :
  Chroma -> string -> nat -> Env -> result (list Document) * Env.
Variable elapse : Z -> Env -> Env.

Abbreviation extract :=
  (extract_shipment_data json_loads str_validator llm_invoke
     chroma_similarity_search elapse).
Abbreviation extract_body :=
  (extract_shipment_data_body json_loads str_validator llm_invoke
     chroma_similarity_search).

(** The body of [extract_shipment_data], step by step: it never raises. *)
Lemma extract_shipment_data_body_run vector_store document_id (w : World Env) :
  extract_body vector_store document_id w =
  match chroma_similarity_search vector_store context_query 5 (env w) with
  | (Raise _, e1) =>
      (Ok empty_shipment_data,
       MkWorld e1 (events w ++ [Search context_query 5]))
  | (Ok results, e1) =>
      let w2 e2 :=
        MkWorld e2 (events w ++ [Search context_query 5;
                                 LlmInvoke (extraction_prompt results)]) in
      match llm_invoke (extraction_prompt results) e1 with
      | (Raise _, e2) => (Ok empty_shipment_data, w2 e2)
      | (Ok response_content, e2) =>
          match and_then (clean_response response_content)
                  (fun result_text =>
                     and_then (parse_json json_loads result_text)
                       (ShipmentData_init str_validator)) with
          | Ok shipment_data => (Ok shipment_data, w2 e2)
          | Raise _ => (Ok empty_shipment_data, w2 e2)
          end
      end
  end.
Proof.
  unfold extract_shipment_data_body, _get_document_context, try_except, bind,
    call, lift, ret, raise, extraction_prompt, and_then.
  destruct (chroma_similarity_search vector_store context_query 5 (env w))
    as [[results|e] e1]; [|reflexivity].
  cbn [env events]. cbv zeta.
  destruct (llm_invoke _ e1) as [[text|e] e2];
    [|now rewrite <- app_assoc].
  destruct (clean_response text) as [result_text|e];
    [|now rewrite <- app_assoc].
  destruct (parse_json json_loads result_text) as [extracted_data|e];
    [|now rewrite <- app_assoc].
  destruct (ShipmentData_init str_validator extracted_data) as [shipment_data|e];
    now rewrite <- app_assoc.
Qed.

(** The decorator adds nothing: the call is its first attempt. *)
Lemma extract_shipment_data_is_body vector_store document_id (w : World Env) :
  extract vector_store document_id w = extract_body vector_store document_id w.
Proof.
  unfold extract_shipment_data.
  destruct (extract_body vector_store document_id w) as [[r|e] w'] eqn:H.
  - now apply retry_on_api_error_ok.
  - exfalso. rewrite extract_shipment_data_body_run in H. cbv zeta in H.
    destruct (chroma_similarity_search _ _ _ _) as [[results|x] e1];
      [|discriminate].
    destruct (llm_invoke _ e1) as [[text|x] e2]; [|discriminate].
    now destruct (and_then _ _).
Qed.

Lemma ShipmentData_init_empty :
  ShipmentData_init str_validator (JDict ∅) = Ok empty_shipment_data.
Proof. reflexivity. Qed.

Lemma parse_json_unparseable result_text je :
  json_loads result_text = Raise je ->
  and_then (parse_json json_loads result_text) (ShipmentData_init str_validator)
  = Ok empty_shipment_data \/
  exists e, parse_json json_loads result_text = Raise e.
Proof.
  intros H. unfold parse_json. rewrite H.
  destruct (isinstance je JSONDecodeError); [left; reflexivity | right; eauto].
Qed.

(** C7.  [extract_shipment_data] never raises: it always returns a record.
    When the search of the index fails, when the call to the model fails,
    and when [json.loads] rejects the cleaned text of the response, with
    whatever exception, the record returned is the all-absent one, right
    after the failing step. *)
Theorem extraction_is_best_effort vector_store document_id (w : World Env) :
  (exists shipment_data w',
     extract vector_store document_id w = (Ok shipment_data, w')) /\
  (forall e e1,
     chroma_similarity_search vector_store context_query 5 (env w)
     = (Raise e, e1) ->
     extract vector_store document_id w
     = (Ok empty_shipment_data,
        MkWorld e1 (events w ++ [Search context_query 5]))) /\
  (forall results e1,
     chroma_similarity_search vector_store context_query 5 (env w)
     = (Ok results, e1) ->
     let after_model e2 :=
       MkWorld e2 (events w ++ [Search context_query 5;
                                LlmInvoke (extraction_prompt results)]) in
     (forall e e2,
        llm_invoke (extraction_prompt results) e1 = (Raise e, e2) ->
        extract vector_store document_id w
        = (Ok empty_shipment_data, after_model e2)) /\
     (forall response_content e2 result_text je,
        llm_invoke (extraction_prompt results) e1 = (Ok response_content, e2) ->
        clean_response response_content = Ok result_text ->
        json_loads result_text = Raise je ->
        extract vector_store document_id w
        = (Ok empty_shipment_data, after_model e2))).
Proof.
  rewrite extract_shipment_data_is_body, extract_shipment_data_body_run.
  cbv zeta. split; [|split].
  - destruct (chroma_similarity_search _ _ _ _) as [[results|x] e1]; [|eauto].
    destruct (llm_invoke _ e1) as [[text|x] e2]; [|eauto].
    destruct (and_then _ _); eauto.
  - now intros e e1 ->.
  - intros results e1 ->. split.
    + now intros e e2 ->.
    + intros response_content e2 result_text je -> Hclean Hloads.
      rewrite Hclean. cbn [and_then].
      destruct (parse_json_unparseable _ _ Hloads) as [-> | [x ->]];
        reflexivity.
Qed.


Lemma startswith_brace_not_fence s :
  startswith s "{" = true -> startswith s "```" = false.
Proof.
  destruct s as [|c s]; [discriminate|].
  unfold startswith. cbn [String.prefix].
  destruct (ascii_dec "{" c) as [<-|]; [reflexivity | discriminate].
Qed.

Lemma clean_response_bare response_content :
  startswith (strip response_content) "```" = false ->
  clean_response response_content = Ok (strip response_content).
Proof.
  intros F. unfold clean_response, and_then.
  now rewrite F, strip_idempotent.
Qed.

(** Building a record from the object that holds it gives it back. *)
Lemma validate_field_as_json r name get :
  In (name, get) fields ->
  validate_field str_validator (as_json r) name = Ok (get r).
Proof.
  intros Hin. destruct r as [f1 f2 f3 f4 f5 f6 f7 f8 f9 f10 f11].
  cbn [fields In] in Hin.
  repeat (destruct Hin as [Hin|Hin];
          [inversion Hin; subst name get; clear Hin; vm_compute;
           repeat match goal with
                  | |- context [match ?f with Some _ => _ | None => _ end] =>
                      destruct f
                  end; reflexivity|]).
  contradiction.
Qed.

Lemma ShipmentData_init_as_json r :
  ShipmentData_init str_validator (JDict (as_json r)) = Ok r.
Proof.
  unfold ShipmentData_init.
  rewrite (validate_field_as_json r _ shipment_id),
    (validate_field_as_json r _ shipper),
    (validate_field_as_json r _ consignee),
    (validate_field_as_json r _ pickup_datetime),
    (validate_field_as_json r _ delivery_datetime),
    (validate_field_as_json r _ equipment_type),
    (validate_field_as_json r _ mode),
    (validate_field_as_json r _ rate),
    (validate_field_as_json r _ currency),
    (validate_field_as_json r _ weight),
    (validate_field_as_json r _ carrier_name)
    by (cbn [fields In]; repeat (try (left; reflexivity); right)).
  cbn [and_then]. now destruct r.
Qed.

(** C8.  Round trip.  Let [json.loads] ignore white space around a text and
    accept as an object only a text that starts with a brace, as the
    library does.  If the response of the model is the JSON of an object
    that holds a record, each of the eleven fields under its name,
    [extract_shipment_data] returns that very record: every string comes
    out as it went in. *)
Theorem extraction_round_trip vector_store document_id (w : World Env)
    results e1 response_content e2 (r : ShipmentData) :
  (forall text value,
     json_loads text = Ok value -> json_loads (strip text) = Ok value) ->
  (forall text kwargs,
     json_loads text = Ok (JDict kwargs) ->
     startswith (strip text) "{" = true) ->
  chroma_similarity_search vector_store context_query 5 (env w)
  = (Ok results, e1) ->
  llm_invoke (extraction_prompt results) e1 = (Ok response_content, e2) ->
  json_loads response_content = Ok (JDict (as_json r)) ->
  extract vector_store document_id w
  = (Ok r, MkWorld e2 (events w ++ [Search context_query 5;
                                    LlmInvoke (extraction_prompt results)])).
Proof.
  intros Hspace Hbrace Hsearch Hllm Hloads.
  rewrite extract_shipment_data_is_body, extract_shipment_data_body_run.
  rewrite Hsearch. cbv zeta. rewrite Hllm.
  rewrite (clean_response_bare _
             (startswith_brace_not_fence _ (Hbrace _ _ Hloads))).
  cbn [and_then]. unfold parse_json.
  rewrite (Hspace _ _ Hloads). cbn [and_then].
  now rewrite ShipmentData_init_as_json.
Qed.

(** What the validation of one field gives. *)
Lemma validate_field_field_of kwargs name value :
  validate_field str_validator kwargs name = Ok value ->
  field_of str_validator kwargs name value.
Proof.
  unfold validate_field, field_of, read_from.
  destruct (kwargs !! name) as [v|];
    [destruct v; try (destruct (str_validator _) eqn:Hv)|];
    intros H; inversion H; subst; clear H;
    (split; [intros s' Hs; congruence|]);
    (split; [intros [Hs|Hs]; congruence|]);
    intros s' Hs; inversion Hs; subst; eauto.
Qed.

Lemma ShipmentData_init_fields kwargs r :
  ShipmentData_init str_validator (JDict kwargs) = Ok r ->
  Forall (fun field : string * (ShipmentData -> option string) =>
            field_of str_validator kwargs (fst field) (snd field r))
         fields.
Proof.
  unfold ShipmentData_init, and_then.
  destruct (validate_field _ kwargs "shipment_id") as [f1|] eqn:H1; [|discriminate].
  destruct (validate_field _ kwargs "shipper") as [f2|] eqn:H2; [|discriminate].
  destruct (validate_field _ kwargs "consignee") as [f3|] eqn:H3; [|discriminate].
  destruct (validate_field _ kwargs "pickup_datetime") as [f4|] eqn:H4; [|discriminate].
  destruct (validate_field _ kwargs "delivery_datetime") as [f5|] eqn:H5; [|discriminate].
  destruct (validate_field _ kwargs "equipment_type") as [f6|] eqn:H6; [|discriminate].
  destruct (validate_field _ kwargs "mode") as [f7|] eqn:H7; [|discriminate].
  destruct (validate_field _ kwargs "rate") as [f8|] eqn:H8; [|discriminate].
  destruct (validate_field _ kwargs "currency") as [f9|] eqn:H9; [|discriminate].
  destruct (validate_field _ kwargs "weight") as [f10|] eqn:H10; [|discriminate].
  destruct (validate_field _ kwargs "carrier_name") as [f11|] eqn:H11; [|discriminate].
  intros H. inversion H; subst r. clear H.
  unfold fields.
  repeat (apply Forall_cons; split;
          [cbn [fst snd shipment_id shipper consignee pickup_datetime
                delivery_datetime equipment_type mode rate currency weight
                carrier_name];
           now apply validate_field_field_of|]).
  apply Forall_nil_2.
Qed.

(** C9, as amended.  The record that [extract_shipment_data] returns is the
    all-absent one, or it is built from the object that [json.loads] made
    of the cleaned response of the model, and then, for each of the eleven
    fields: a string under the field's name is the field's value as it is,
    also when it is empty; no entry there, or [null], gives an absent
    field; and a field that is not absent holds the string found there, or
    what the validator made of another value found there. *)
Theorem extracted_fields_come_from_response vector_store document_id
    (w : World Env) :
  exists shipment_data w',
    extract vector_store document_id w = (Ok shipment_data, w') /\
    (shipment_data = empty_shipment_data \/
     exists results e1 response_content e2 result_text kwargs,
       chroma_similarity_search vector_store context_query 5 (env w)
       = (Ok results, e1) /\
       llm_invoke (extraction_prompt results) e1 = (Ok response_content, e2) /\
       clean_response response_content = Ok result_text /\
       json_loads result_text = Ok (JDict kwargs) /\
       Forall (fun field : string * (ShipmentData -> option string) =>
                 field_of str_validator kwargs (fst field)
                   (snd field shipment_data))
              fields).
Proof.
  rewrite extract_shipment_data_is_body, extract_shipment_data_body_run.
  cbv zeta.
  destruct (chroma_similarity_search _ _ _ _) as [[results|x] e1] eqn:Hsearch;
    [|eauto].
  destruct (llm_invoke _ e1) as [[response_content|x] e2] eqn:Hllm; [|eauto].
  destruct (clean_response response_content) as [result_text|x] eqn:Hclean;
    cbn [and_then]; [|eauto].
  unfold parse_json.
  destruct (json_loads result_text) as [extracted_data|je] eqn:Hloads;
    cbn [and_then].
  - destruct (ShipmentData_init str_validator extracted_data)
      as [shipment_data|x] eqn:Hinit; [|eauto].
    destruct extracted_data as [| | | | | |kwargs]; try discriminate Hinit.
    eexists _, _. split; [reflexivity|]. right.
    exists results, e1, response_content, e2, result_text, kwargs.
    repeat split; try assumption.
    now apply ShipmentData_init_fields.
  - destruct (isinstance je JSONDecodeError); cbn [and_then]; eauto.
Qed.

End ExtractionFacts.

Section ExtractionExamples.
Import Py Sys Extractor Observe Fixtures.
Local Open Scope list_scope.

Lemma loads_only_trimmed text value s v :
  loads_only text value s = Ok v -> loads_only text value (strip s) = Ok v.
Proof. unfold loads_only. now rewrite strip_idempotent. Qed.

Lemma loads_only_object text value :
  startswith text "{" = true ->
  forall s (kwargs : gmap string json),
    loads_only text value s = Ok (JDict kwargs) ->
    startswith (strip s) "{" = true.
Proof.
  intros Hbrace s kwargs. unfold loads_only.
  destruct (String.eqb_spec (strip s) text) as [->|]; [|discriminate].
  now intros _.
Qed.

Lemma extraction_is_best_effort_witness :
  extract_shipment_data loads_nothing coerces_nothing
    (llm_says "Sorry, I cannot read this document.")
    (search_fails Samples.connection_error) still tt "doc-1" start
  = (Ok empty_shipment_data, MkWorld tt [Search context_query 5])
  /\
  extract_shipment_data loads_nothing coerces_nothing llm_429
    (index_finds [rate_chunk]) still tt "doc-1" start
  = (Ok empty_shipment_data,
     MkWorld tt [Search context_query 5;
                 LlmInvoke (extraction_prompt [rate_chunk])])
  /\
  extract_shipment_data loads_nothing coerces_nothing
    (llm_says "Sorry, I cannot read this document.")
    (index_finds [rate_chunk]) still tt "doc-1" start
  = (Ok empty_shipment_data,
     MkWorld tt [Search context_query 5;
                 LlmInvoke (extraction_prompt [rate_chunk])]).
Proof.
  split; [|split].
  - apply (proj1 (proj2 (extraction_is_best_effort loads_nothing
                           coerces_nothing
                           (llm_says "Sorry, I cannot read this document.")
                           (search_fails Samples.connection_error) still tt
                           "doc-1" start))
             Samples.connection_error tt).
    reflexivity.
  - apply (proj1 (proj2 (proj2 (extraction_is_best_effort loads_nothing
                                  coerces_nothing llm_429
                                  (index_finds [rate_chunk]) still tt
                                  "doc-1" start))
                    [rate_chunk] tt eq_refl)
             Samples.api_429 tt).
    reflexivity.
  - apply (proj2 (proj2 (proj2 (extraction_is_best_effort loads_nothing
                                  coerces_nothing
                                  (llm_says "Sorry, I cannot read this document.")
                                  (index_finds [rate_chunk]) still tt
                                  "doc-1" start))
                    [rate_chunk] tt eq_refl)
             "Sorry, I cannot read this document."%string tt
             "Sorry, I cannot read this document."%string
             (Exc JSONDecodeError "Expecting value" None));
      reflexivity.
Defined.

Lemma extraction_round_trip_witness :
  extract_shipment_data
    (loads_only bill_of_lading_text (JDict (as_json bill_of_lading)))
    coerces_nothing (llm_says bill_of_lading_text)
    (index_finds [rate_chunk; carrier_chunk]) still tt "doc-1" start
  = (Ok bill_of_lading,
     MkWorld tt [Search context_query 5;
                 LlmInvoke (extraction_prompt [rate_chunk; carrier_chunk])]).
Proof.
  apply (extraction_round_trip
           (loads_only bill_of_lading_text (JDict (as_json bill_of_lading)))
           coerces_nothing (llm_says bill_of_lading_text)
           (index_finds [rate_chunk; carrier_chunk]) still tt "doc-1" start
           [rate_chunk; carrier_chunk] tt bill_of_lading_text tt
           bill_of_lading).
  - intros text value. apply loads_only_trimmed.
  - apply loads_only_object. reflexivity.
  - reflexivity.
  - reflexivity.
  - reflexivity.
Defined.

(** C9 as stated fails: when the model answers with the object whose
    shipment id is the empty string, the record returned holds the empty
    string as shipment id, not an absent field. *)
Lemma empty_string_is_kept :
  blank_id_text
  = ("{" ++ dquote ++ "shipment_id" ++ dquote ++ ": " ++ dquote ++ dquote
     ++ "}")%string
  /\
  extract_shipment_data (loads_only blank_id_text (JDict blank_id))
    coerces_nothing (llm_says blank_id_text) (index_finds [rate_chunk])
    still tt "doc-1" start
  = (Ok (MkShipmentData (Some ""%string) None None None None None None None
                        None None None),
     MkWorld tt [Search context_query 5;
                 LlmInvoke (extraction_prompt [rate_chunk])]).
Proof. split; reflexivity. Qed.

End ExtractionExamples.

(** ** The vector store manager *)

Section VectorStoreFacts.
Import Py Sys VectorStore.
Context {Env Chroma : Type}.
Variable Chroma_open : string -> Env -> result Chroma * Env.
Variable Chroma_delete_collection : Chroma -> Env -> result unit * Env.
Variable Chroma_bool : Chroma -> Env -> result bool * Env.

(** [load_vector_store] never raises: it returns the collection that was
    opened, or [None] when opening it raised, whatever the exception. *)
Theorem load_vector_store_never_raises collection_name (w : World Env) :
  load_vector_store Chroma_open collection_name w
  = (Ok (match fst (Chroma_open collection_name (env w)) with
         | Ok vector_store => Some vector_store
         | Raise _ => None
         end),
     MkWorld (snd (Chroma_open collection_name (env w))) (events w)).
Proof.
  unfold load_vector_store, try_except, bind, service, ret.
  now destruct (Chroma_open collection_name (env w)) as [[vs|e] e1].
Qed.

(** X15.  [delete_collection] never raises, and it answers [True] exactly when
    the collection was opened, counted as true, and deleted without an
    exception; a failure at any of these steps gives [False]. *)
Theorem delete_collection_true_iff_deleted collection_name (w : World Env) :
  exists deleted w',
    delete_collection Chroma_open Chroma_delete_collection Chroma_bool
      collection_name w = (Ok deleted, w') /\
    (deleted = true <->
     exists vector_store e1 e2 e3,
       Chroma_open collection_name (env w) = (Ok vector_store, e1) /\
       Chroma_bool vector_store e1 = (Ok true, e2) /\
       Chroma_delete_collection vector_store e2 = (Ok tt, e3)).
Proof.
  unfold delete_collection, try_except, bind.
  rewrite load_vector_store_never_raises.
  destruct (Chroma_open collection_name (env w)) as [[vs|e] e1] eqn:Eo;
    cbn [fst snd].
  - unfold truth, service, ret. cbn [env events].
    destruct (Chroma_bool vs e1) as [[[|]|e] e2] eqn:Eb.
    + cbn [env events].
      destruct (Chroma_delete_collection vs e2) as [[[]|e] e3] eqn:Ed.
      * eexists _, _. split; [reflexivity|]. split; [|reflexivity].
        intros _. now exists vs, e1, e2, e3.
      * eexists _, _. split; [reflexivity|]. split; [discriminate|].
        intros (vs' & e1' & e2' & e3' & H1 & H2 & H3).
        congruence.
    + eexists _, _. split; [reflexivity|]. split; [discriminate|].
      intros (vs' & e1' & e2' & e3' & H1 & H2 & H3). congruence.
    + eexists _, _. split; [reflexivity|]. split; [discriminate|].
      intros (vs' & e1' & e2' & e3' & H1 & H2 & H3). congruence.
  - eexists _, _. split; [reflexivity|]. split; [discriminate|].
    intros (vs' & e1' & e2' & e3' & H1 & H2 & H3). congruence.
Qed.

End VectorStoreFacts.

(** ** Chunking *)

Section ChunkingFacts.
Import Py Sys DocumentProcessor.
Local Open Scope list_scope.
Variable split_documents : list Document -> result (list Document).

Lemma add_metadata_length document_id filename total chunks : forall idx,
  length (add_metadata document_id filename total idx chunks) = length chunks.
Proof.
  induction chunks as [|c chunks IH]; intros idx; cbn; [reflexivity|].
  now rewrite IH.
Qed.

Lemma add_metadata_lookup document_id filename total chunks :
  forall idx (i : nat) chunk,
    chunks !! i = Some chunk ->
    add_metadata document_id filename total idx chunks !! i
    = Some (MkDocument (page_content chunk)
              (chunk_metadata document_id filename (idx + i) total
               ∪ metadata chunk)).
Proof.
  induction chunks as [|c chunks IH]; intros idx i chunk H; [discriminate|].
  destruct i as [|i]; simpl in H |- *.
  - inversion H; subst. now rewrite Nat.add_0_r.
  - specialize (IH (S idx) i chunk H).
    replace (idx + S i)%nat with (S idx + i)%nat by lia. exact IH.
Qed.

(** X16.  What [chunk_documents] does to the chunks the splitter returns: it
    keeps their number, order and text, numbers them from 0 in
    ["chunk_index"], writes their count in ["total_chunks"] and the
    document's id and file name in every one, and leaves every other
    metadata key as the splitter set it. *)
Theorem chunk_documents_stamps_each_chunk documents document_id filename
    chunks :
  split_documents documents = Ok chunks ->
  exists stamped,
    chunk_documents split_documents documents document_id filename = Ok stamped /\
    length stamped = length chunks /\
    forall (i : nat) chunk, chunks !! i = Some chunk ->
      exists out, stamped !! i = Some out /\
        page_content out = page_content chunk /\
        metadata out !! "chunk_index" = Some (JInt (Z.of_nat i)) /\
        metadata out !! "total_chunks" = Some (JInt (Z.of_nat (length chunks))) /\
        metadata out !! "document_id" = Some (JStr document_id) /\
        metadata out !! "filename" = Some (JStr filename) /\
        forall key : string,
          key <> "chunk_index"%string -> key <> "total_chunks"%string ->
          key <> "document_id"%string -> key <> "filename"%string ->
          metadata out !! key = metadata chunk !! key.
Proof.
  intros Hs. unfold chunk_documents. rewrite Hs.
  eexists. split; [reflexivity|]. split; [apply add_metadata_length|].
  intros i chunk Hi.
  eexists. split; [exact (add_metadata_lookup _ _ _ _ 0%nat i chunk Hi)|].
  cbn [page_content metadata]. unfold chunk_metadata.
  split; [reflexivity|].
  repeat split.
  - apply lookup_union_Some_l. now simplify_map_eq.
  - apply lookup_union_Some_l. now simplify_map_eq.
  - apply lookup_union_Some_l. now simplify_map_eq.
  - apply lookup_union_Some_l. now simplify_map_eq.
  - intros key H1 H2 H3 H4. apply lookup_union_r. now simplify_map_eq.
Qed.

(** A failure of the splitter is re-raised as it is. *)
Lemma chunk_documents_reraises documents document_id filename e :
  split_documents documents = Raise e ->
  chunk_documents split_documents documents document_id filename = Raise e.
Proof. unfold chunk_documents. now intros ->. Qed.

End ChunkingFacts.

(** ** Helpers *)

Section HelperFacts.
Import Py Helpers.

Lemma rsplit_last_none sep s :
  contains (String sep "") s = false -> rsplit_last sep s = None.
Proof.
  induction s as [|a s IH]; [reflexivity|].
  rewrite contains_char_cons. destruct (ascii_dec sep a) as [|Hne];
    [discriminate|].
  intros H. cbn [rsplit_last]. rewrite (IH H).
  destruct (Ascii.eqb_spec a sep); [now subst | reflexivity].
Qed.

Lemma rsplit_last_some sep s :
  contains (String sep "") s = true -> exists before after,
    rsplit_last sep s = Some (before, after).
Proof.
  induction s as [|a s IH]; [discriminate|].
  rewrite contains_char_cons. cbn [rsplit_last].
  destruct (ascii_dec sep a) as [<-|Hne].
  - intros _. destruct (rsplit_last sep s) as [[b r]|]; [eauto|].
    rewrite Ascii.eqb_refl. eauto.
  - intros H. destruct (IH H) as [b [r ->]]. eauto.
Qed.

Lemma rsplit_last_app sep ext : 
  contains (String sep "") ext = false ->
  forall stem,
    rsplit_last sep (stem ++ String sep "" ++ ext) = Some (stem, ext).
Proof.
  intros He. induction stem as [|a stem IH].
  - change ("" ++ String sep "" ++ ext)%string with (String sep ext).
    cbn [rsplit_last]. rewrite (rsplit_last_none _ _ He).
    now rewrite Ascii.eqb_refl.
  - rewrite append_cons. cbn [rsplit_last]. now rewrite IH.
Qed.

(** X17.  [validate_file_extension] never raises.  A name without a dot is
    refused; otherwise only the text after the last dot counts, and it
    counts lower-cased: the name is accepted exactly when that text, in
    lower case, is one of the allowed extensions. *)
Theorem validate_file_extension_by_last_dot (allowed_extensions : gset string) :
  (forall filename, exists valid,
     validate_file_extension filename allowed_extensions = Ok valid) /\
  (forall filename, contains "." filename = false ->
     validate_file_extension filename allowed_extensions = Ok false) /\
  (forall stem ext, contains "." ext = false ->
     validate_file_extension (stem ++ "." ++ ext) allowed_extensions
     = Ok (bool_decide (lower ext ∈ allowed_extensions))).
Proof.
  split; [|split].
  - intros filename. unfold validate_file_extension, rsplit1.
    destruct (contains "." filename) eqn:E; cbn [negb]; [|eauto].
    destruct (rsplit_last_some _ _ E) as [b [r ->]]. cbn. eauto.
  - intros filename E. unfold validate_file_extension. now rewrite E.
  - intros stem ext E. unfold validate_file_extension, rsplit1.
    rewrite contains_char_app, contains_char_app. 
    change (contains "." ".") with true. rewrite orb_true_r. cbn [negb orb].
    now rewrite (rsplit_last_app "." ext E stem).
Qed.

Variable float_str : float -> string.

(** X18.  [format_confidence_score] puts a score in the category in which
    [calculate_confidence_score] puts a confidence, shows the same rounded
    value as [generate_answer] reports, and colours by category alone:
    green for high, yellow for medium, red for low. *)
Theorem format_confidence_score_agrees cfg sum retrieval_scores answer sources
    confidence confidence_category :
  RagEngine.calculate_confidence_score cfg sum retrieval_scores answer sources
  = Ok (confidence, confidence_category) ->
  category (format_confidence_score float_str confidence) = confidence_category /\
  score (format_confidence_score float_str confidence) = round confidence 3 /\
  color (format_confidence_score float_str confidence)
  = (if String.eqb confidence_category "high" then "green"
     else if String.eqb confidence_category "medium" then "yellow"
     else "red")%string.
Proof.
  unfold RagEngine.calculate_confidence_score, format_confidence_score.
  destruct (div_len _ _) as [mean|e]; [|discriminate].
  cbv zeta. intros H. inversion H; subst. clear H.
  destruct (0.7 <=? _)%float; [now repeat split|].
  destruct (0.5 <=? _)%float; now repeat split.
Qed.

End HelperFacts.

(** ** The endpoints *)

Section EndpointFacts.
Import Py Sys Config App.
Local Open Scope list_scope.
Variable cfg : Settings.
Variable sum : list float -> float.
Variable json_loads : string -> result json.
Variable str_validator : json -> option string.
Context {Env Chroma : Type}.
Variable llm_invoke : string -> Env -> result string * Env.
Variable similarity_search_with_score :
  Chroma -> string -> nat -> Env -> result (list (Document * float)) * Env.
Variable chroma_similarity_search :
  Chroma -> string -> nat -> Env -> result (list Document) * Env.
Variable MistralAIEmbeddings : Env -> result unit * Env.
Variable Chroma_open : string -> Env -> result Chroma * Env.
Variable Chroma_bool : Chroma -> Env -> result bool * Env.
Variable elapse : Z -> Env -> Env.

Abbreviation ask_endpoint :=
  (App.ask_question cfg sum llm_invoke similarity_search_with_score
     MistralAIEmbeddings Chroma_open Chroma_bool elapse).
Abbreviation extract_endpoint :=
  (App.extract_structured_data json_loads str_validator llm_invoke
     chroma_similarity_search Chroma_open Chroma_bool elapse).
Abbreviation engine_ask :=
  (RagEngine.ask_question cfg sum llm_invoke similarity_search_with_score
     MistralAIEmbeddings elapse).

Lemma to_http_cases prefix e :
  (exists detail, to_http prefix e = HTTPException 500 detail) \/
  (to_http prefix e = Reraised e /\ is_http_exception e = true).
Proof.
  unfold to_http. destruct (is_http_exception e); [right | left]; eauto.
Qed.

(** X19.  What leaves the [/ask] endpoint, case by case.  A document that
    is not registered gets the 404, and nothing is called; the endpoint
    builds a 404 in no other case, so it answers 404 if and only if the
    document is not registered.  When the collection of a registered
    document cannot be opened, or opens but counts as false, it gets the
    500 "Failed to load document vector store".  Otherwise the engine is
    asked on that collection: an answer of the engine, be it an abstention,
    becomes the success response that copies its text, confidence and
    category and, in order, the text, similarity and metadata of every
    source; an exception of the engine (or of the truth test) becomes a 500
    that quotes its text, unless it is an [HTTPException], which is
    re-raised as it is.  No other exception escapes. *)
Theorem ask_endpoint_outcomes (document_registry : gmap string DocInfo)
    document_id question (w : World Env) :
  let failed e :=
    if is_http_exception e then Reraised e
    else HTTPException 500 ("Error processing question: " ++ str e) in
  let not_loaded :=
    HTTPException 500 "Failed to load document vector store" in
  (match document_registry !! document_id with
  | None =>
      ask_endpoint document_registry document_id question w
      = (inr (HTTPException 404
                "Document not found. Please upload the document first."), w)
  | Some doc_info =>
      match Chroma_open (collection_name doc_info) (env w) with
      | (Raise _, e1) =>
          ask_endpoint document_registry document_id question w
          = (inr not_loaded, MkWorld e1 (events w))
      | (Ok vector_store, e1) =>
          match Chroma_bool vector_store e1 with
          | (Raise e, e2) =>
              ask_endpoint document_registry document_id question w
              = (inr (failed e), MkWorld e2 (events w))
          | (Ok false, e2) =>
              ask_endpoint document_registry document_id question w
              = (inr not_loaded, MkWorld e2 (events w))
          | (Ok true, e2) =>
              match engine_ask vector_store question
                      (MkWorld e2 (events w)) with
              | (Raise e, w') =>
                  ask_endpoint document_registry document_id question w
                  = (inr (failed e), w')
              | (Ok result, w') =>
                  ask_endpoint document_registry document_id question w
                  = (inl (MkAskResponse true (RagEngine.answer result)
                            (RagEngine.confidence_score result)
                            (RagEngine.confidence_category result)
                            (map (fun source =>
                                    MkSourceChunk (RagEngine.content source)
                                      (RagEngine.similarity_score source)
                                      (RagEngine.source_metadata source))
                                 (RagEngine.sources result))
                            None), w')
              end
          end
      end
  end)
  /\
  ((exists detail,
      fst (ask_endpoint document_registry document_id question w)
      = inr (HTTPException 404 detail))
   <-> document_registry !! document_id = None).
Proof.
  cbv zeta. unfold App.ask_question.
  destruct (document_registry !! document_id) as [doc_info|].
  2: { split; [reflexivity|]. split; [reflexivity|]. intros _. eauto. }
  unfold loaded, bind, VectorStore.load_vector_store, try_except, bind,
    VectorStore.truth, VectorStore.service, ret, to_http.
  destruct (Chroma_open (collection_name doc_info) (env w))
    as [[vector_store|e] e1].
  2: { split; [reflexivity|].
       split; [intros [detail H]; discriminate H | discriminate]. }
  cbn [env events].
  destruct (Chroma_bool vector_store e1) as [[[|]|e] e2].
  - destruct (engine_ask vector_store question (MkWorld e2 (events w)))
      as [[result|e] w']; (split; [reflexivity|]);
      (split; [intros [detail H] | discriminate]).
    + discriminate H.
    + cbn [fst] in H. destruct (is_http_exception e); discriminate H.
  - split; [reflexivity|].
    split; [intros [detail H]; discriminate H | discriminate].
  - split; [reflexivity|].
    split; [intros [detail H] | discriminate].
    cbn [fst] in H. destruct (is_http_exception e); discriminate H.
Qed.

(** The extractor always returns a record. *)
Lemma extract_shipment_data_returns vector_store document_id (w : World Env) :
  exists shipment_data w',
    Extractor.extract_shipment_data json_loads str_validator llm_invoke
      chroma_similarity_search elapse vector_store document_id w
    = (Ok shipment_data, w').
Proof.
  unfold Extractor.extract_shipment_data.
  destruct (Extractor.extract_shipment_data_body json_loads str_validator
              llm_invoke chroma_similarity_search vector_store document_id w)
    as [[r|e] w'] eqn:E.
  - exists r, w'. now apply retry_on_api_error_ok.
  - exfalso. revert E.
    unfold Extractor.extract_shipment_data_body, try_except, ret.
    now destruct (bind _ _ w) as [[r|e'] w''].
Qed.

(** X20.  For a registered document whose collection opens and counts as true,
    the [/extract] endpoint always answers with [success = True] and the
    message of success, also when the extraction itself failed and the
    record is empty: no failure of the index or of the model shows. *)
Theorem extract_endpoint_always_succeeds
    (document_registry : gmap string DocInfo) document_id doc_info
    (w : World Env) vector_store e1 e2 :
  document_registry !! document_id = Some doc_info ->
  Chroma_open (collection_name doc_info) (env w) = (Ok vector_store, e1) ->
  Chroma_bool vector_store e1 = (Ok true, e2) ->
  exists shipment_data w',
    extract_endpoint document_registry document_id w
    = (inl (MkExtractResponse true document_id shipment_data
              (Some "Structured data extracted successfully"%string)), w').
Proof.
  intros Hreg Hopen Hbool. unfold App.extract_structured_data.
  rewrite Hreg.
  assert (Hl : loaded Chroma_open Chroma_bool (collection_name doc_info) w
               = (Ok (Some vector_store), MkWorld e2 (events w))).
  { unfold loaded, bind, VectorStore.load_vector_store, try_except, bind,
      VectorStore.truth, VectorStore.service, ret.
    rewrite Hopen. cbn [env events]. now rewrite Hbool. }
  rewrite Hl.
  destruct (extract_shipment_data_returns vector_store document_id
              (MkWorld e2 (events w))) as [data [w' ->]].
  now exists data, w'.
Qed.

End EndpointFacts.

Section MoreExamples.
Import Py Sys Config Fixtures.
Local Open Scope list_scope.

Lemma clean_response_unfenced_witness :
  Extractor.clean_response "  {}
" = Ok "{}"%string /\
  Extractor.clean_response "{}" = Ok "{}"%string.
Proof.
  apply (clean_response_unfenced "  {}
"). reflexivity.
Defined.

Lemma clean_response_fenced_witness :
  Extractor.clean_response "```json
{}
```" = Ok "{}"%string /\
  Extractor.clean_response "```
{}
```" = Ok "{}"%string.
Proof. apply (clean_response_fenced "{}"). reflexivity. Defined.

Lemma chunk_documents_stamps_each_chunk_witness :
  exists stamped,
    DocumentProcessor.chunk_documents split_in_two [] "doc-1" "bol.pdf"
    = Ok stamped /\
    length stamped = 2%nat /\
    forall (i : nat) chunk, [rate_chunk; carrier_chunk] !! i = Some chunk ->
      exists out, stamped !! i = Some out /\
        page_content out = page_content chunk /\
        metadata out !! "chunk_index" = Some (JInt (Z.of_nat i)) /\
        metadata out !! "total_chunks" = Some (JInt 2) /\
        metadata out !! "document_id" = Some (JStr "doc-1") /\
        metadata out !! "filename" = Some (JStr "bol.pdf") /\
        forall key : string,
          key <> "chunk_index"%string -> key <> "total_chunks"%string ->
          key <> "document_id"%string -> key <> "filename"%string ->
          metadata out !! key = metadata chunk !! key.
Proof.
  apply (chunk_documents_stamps_each_chunk split_in_two [] "doc-1" "bol.pdf"
           [rate_chunk; carrier_chunk]).
  reflexivity.
Defined.

Lemma validate_file_extension_by_last_dot_witness :
  Helpers.validate_file_extension "README" {["pdf"; "docx"; "txt"]} = Ok false /\
  Helpers.validate_file_extension "bol.v2.PDF" {["pdf"; "docx"; "txt"]}
  = Ok (bool_decide (lower "PDF" ∈ ({["pdf"; "docx"; "txt"]} : gset string))).
Proof.
  split.
  - apply (proj1 (proj2 (validate_file_extension_by_last_dot
                           {["pdf"; "docx"; "txt"]})) "README"%string).
    reflexivity.
  - apply (proj2 (proj2 (validate_file_extension_by_last_dot
                           {["pdf"; "docx"; "txt"]})) "bol.v2"%string "PDF"%string).
    reflexivity.
Defined.

Lemma format_confidence_score_agrees_witness :
  Helpers.category (Helpers.format_confidence_score prints_70 0.7) = "high"%string /\
  Helpers.score (Helpers.format_confidence_score prints_70 0.7) = round 0.7 3 /\
  Helpers.color (Helpers.format_confidence_score prints_70 0.7) = "green"%string.
Proof.
  apply (format_confidence_score_agrees prints_70 settings sum_left_to_right
           [0.6; 0.6]%float "" [rate_chunk; carrier_chunk] 0.7%float "high").
  reflexivity.
Defined.

Lemma extract_endpoint_always_succeeds_witness :
  exists shipment_data w',
    App.extract_structured_data loads_nothing coerces_nothing llm_429
      (index_finds [rate_chunk]) opens not_empty still one_document "doc-1"
      start
    = (inl (App.MkExtractResponse true "doc-1" shipment_data
              (Some "Structured data extracted successfully"%string)), w').
Proof.
  apply (extract_endpoint_always_succeeds loads_nothing coerces_nothing llm_429
           (index_finds [rate_chunk]) opens not_empty still one_document
           "doc-1" (App.MkDocInfo "bol.pdf" "uploads/doc-1_bol.pdf" "doc_doc-1" 2)
           start tt tt tt); reflexivity.
Defined.

End MoreExamples.
